(** * Document ingestion and parse-completion pipeline of [src/ragflow_ops.py]

    A shallow embedding of [list_documents_in_dataset],
    [upload_document_to_dataset], [upload_documents] and
    [parse_documents_in_dataset], followed by the properties of the
    duplicate check, the folder walk, the parse trigger and the status
    polling loop.

    The remote store (the [DataSet] object of the SDK) is an interface: a
    state type with one transition per SDK call.  Every program is a
    function from the store state to its result, the next store state and
    the list of SDK calls it made, in order.  The [while] loop of the poller
    has no bound in the source, so its model takes a fuel argument and
    answers [None] when the fuel runs out. *)

From Stdlib Require Import ZArith List String Ascii Bool Lia.
Import ListNotations.

Local Open Scope string_scope.
Local Open Scope Z_scope.
Local Open Scope list_scope.

(** ** Python values *)

(** The outcome of a call that may raise. *)
Inductive result (A : Type) : Type :=
| Ok (a : A)
| Raised.
Arguments Ok {A} a.
Arguments Raised {A}.

(** Truth value of a string ([if doc_id:]). *)
Definition truthy (s : string) : bool := negb (String.eqb s "").

(** Truth value of an optional string ([None] and [''] are false). *)
Definition truthy_opt (o : option string) : bool :=
  match o with
  | Some s => truthy s
  | None => false
  end.

(** [s in [a, b, ...]] on strings. *)
Definition str_in (s : string) (l : list string) : bool :=
  existsb (String.eqb s) l.

(** [str.lower], on the ASCII letters. *)
Definition lower_ascii (c : ascii) : ascii :=
  let n := nat_of_ascii c in
  if (65 <=? n)%nat && (n <=? 90)%nat then ascii_of_nat (n + 32) else c.

Fixpoint lower (s : string) : string :=
  match s with
  | EmptyString => EmptyString
  | String c s' => String (lower_ascii c) (lower s')
  end.

(** [s.endswith(suffix)]. *)
Fixpoint endswith (s suffix : string) : bool :=
  String.eqb suffix s ||
  match s with
  | EmptyString => false
  | String _ s' => endswith s' suffix
  end.

(** [s.endswith(tuple_of_suffixes)]. *)
Definition endswith_any (s : string) (suffixes : list string) : bool :=
  existsb (endswith s) suffixes.

(** ** Data model *)

(** The dataset handle; both fields are only used in log lines.  A falsy
    handle ([not dataset_object]) is [None : option DataSet]. *)
Record DataSet := mkDataSet {
  ds_name : string;
  ds_id : string }.

(** One element of a document listing.  The listing holds SDK objects or,
    on the JSON path of [list_documents_in_dataset], plain dicts; a field
    is [None] when the attribute (or key) is absent. *)
Record Doc := mkDoc {
  doc_is_dict : bool;
  doc_id : option string;
  doc_name : option string;
  doc_display_name : option string;
  doc_run : option string;
  doc_progress : option string }.

(** [hasattr(doc, a)]: a dict has none of the attributes. *)
Definition hasattr (d : Doc) (field : Doc -> option string) : bool :=
  negb (doc_is_dict d) &&
  match field d with Some _ => true | None => false end.

(** [doc.a]: [None] stands for the [AttributeError]. *)
Definition getattr (d : Doc) (field : Doc -> option string) : option string :=
  if doc_is_dict d then None else field d.

(** Arguments of [dataset_object.list_documents(...)]. *)
Record ListArgs := mkListArgs {
  la_id : option string;
  la_keywords : option string;
  la_page : option Z;
  la_page_size : option Z }.

(** The remote store, as the pipeline uses it: one transition per SDK
    call, and [api_sleep] for the time that passes during [time.sleep],
    while the store goes on parsing. *)
Class DataSetAPI (W : Type) := {
  api_list_documents : W -> ListArgs -> W * result (list Doc);
  api_upload_documents : W -> string -> string -> W * result unit;
  api_delete : W -> string -> W * result unit;
  api_async_parse_documents : W -> list string -> W * result unit;
  api_sleep : W -> Z -> W }.

(** The calls a run makes, with what they returned. *)
Inductive event :=
| EvList (a : ListArgs) (r : result (list Doc))
| EvUpload (display_name blob : string) (r : result unit)
| EvDelete (id : string) (r : result unit)
| EvAsyncParse (ids : list string) (r : result unit)
| EvSleep (secs : Z).

(** A directory entry of the document folder, with what the file system
    answers about it: [os.path.isfile], [os.path.exists], and the bytes
    [open(...).read()] gives ([None] when it raises). *)
Record DirEntry := mkDirEntry {
  de_name : string;
  de_isfile : bool;
  de_exists : bool;
  de_blob : option string }.

(** The [document_upload] section of the configuration; a key that is not
    set is [None]. *)
Record DocUploadConfig := mkDocUploadConfig {
  cfg_duplicate_handling : option string;
  cfg_parse_retry_count : option Z;
  cfg_parse_retry_interval : option Z }.

(** The configuration dictionary. *)
Record Config := mkConfig {
  cfg_document_upload : option DocUploadConfig }.

(** Local variables of [parse_documents_in_dataset]. *)
Record ParseVars := mkParseVars {
  success_count : Z;
  failed_count : Z;
  retry_count : Z;
  failed_status_count : Z;
  parse_completed : bool;
  parse_status : option string }.

(** Local variables of [upload_documents]. *)
Record IngestVars := mkIngestVars {
  uploaded_doc_ids : list string;
  skipped_count : Z;
  replaced_count : Z;
  upload_failed_count : Z;
  processed_count : Z }.

(** How a loop body was left. *)
Inductive flow := Break | Continue | Fallthrough.

Definition status_success : list string := ["success"; "DONE"].
Definition status_failed : list string := ["failed"; "error"; "FAIL"].

(** ** The programs *)

Section Pipeline.

Context {W : Type} {API : DataSetAPI W}.

(** A program: result, next store state, calls made. *)
Definition Run (A : Type) : Type := W -> A * W * list event.

Definition ret {A} (a : A) : Run A := fun w => (a, w, []).

Definition bind {A B} (m : Run A) (f : A -> Run B) : Run B :=
  fun w =>
    let '(a, w1, t1) := m w in
    let '(b, w2, t2) := f a w1 in
    (b, w2, t1 ++ t2).

Notation "x <- m ;; k" := (bind m (fun x => k))
  (at level 61, m at next level, right associativity).
Notation "' p <- m ;; k" := (bind m (fun x => let p := x in k))
  (at level 61, p pattern, m at next level, right associativity).

Definition call_list_documents (a : ListArgs) : Run (result (list Doc)) :=
  fun w => let '(w1, r) := api_list_documents w a in (r, w1, [EvList a r]).

Definition call_upload_documents (display_name blob : string) : Run (result unit) :=
  fun w =>
    let '(w1, r) := api_upload_documents w display_name blob in
    (r, w1, [EvUpload display_name blob r]).

Definition call_delete (id : string) : Run (result unit) :=
  fun w => let '(w1, r) := api_delete w id in (r, w1, [EvDelete id r]).

Definition call_async_parse_documents (ids : list string) : Run (result unit) :=
  fun w =>
    let '(w1, r) := api_async_parse_documents w ids in
    (r, w1, [EvAsyncParse ids r]).

Definition sleep (secs : Z) : Run unit :=
  fun w => (tt, api_sleep w secs, [EvSleep secs]).

(** [list_documents_in_dataset]: by id when an id is given, else by
    keywords, else the whole page; any exception gives the empty list.
    The unwrapping of a [Response] object into the listing it carries
    always ends in a listing, and is part of the store's answer here. *)
Definition list_documents_in_dataset (dataset_object : option DataSet)
    (keywords : option string) (page page_size : Z) (id : option string)
  : Run (list Doc) :=
  match dataset_object with
  | None => ret []
  | Some _ =>
      r <- (if truthy_opt id then
              call_list_documents (mkListArgs id None None None)
            else if truthy_opt keywords then
              call_list_documents
                (mkListArgs None keywords (Some page) (Some page_size))
            else
              call_list_documents
                (mkListArgs None None (Some page) (Some page_size))) ;;
      match r with
      | Ok documents => ret documents
      | Raised => ret []
      end
  end.

(** The name test of the id lookup:
    [hasattr(doc,'name') and doc.name == file_name or
     hasattr(doc,'display_name') and getattr(doc,'display_name','') == file_name]. *)
Definition name_matches (file_name : string) (d : Doc) : bool :=
  (hasattr d doc_name &&
   match getattr d doc_name with Some n => String.eqb n file_name | None => false end)
  ||
  (hasattr d doc_display_name &&
   match getattr d doc_display_name with
   | Some n => String.eqb n file_name
   | None => String.eqb "" file_name
   end).

(** The [for doc in docs] loop of the id lookup: [Ok id] is the value of
    [doc_id] after the loop, [Raised] the [AttributeError] of [doc.id]. *)
Fixpoint find_doc_id (file_name : string) (docs : list Doc) : result string :=
  match docs with
  | [] => Ok ""
  | d :: rest =>
      if name_matches file_name d then
        match getattr d doc_id with
        | Some i => Ok i
        | None => Raised
        end
      else find_doc_id file_name rest
  end.

(** [upload_document_to_dataset]: the success flag and the recovered id. *)
Definition upload_document_to_dataset (dataset_object : option DataSet)
    (f : DirEntry) : Run (bool * string) :=
  match dataset_object with
  | None => ret (false, "")
  | Some _ =>
      if negb (de_exists f) then ret (false, "")
      else
        let file_name := de_name f in
        match de_blob f with
        | None => ret (false, "")
        | Some blob_content =>
            r <- call_upload_documents file_name blob_content ;;
            match r with
            | Raised => ret (false, "")
            | Ok _ =>
                l <- call_list_documents
                       (mkListArgs None (Some file_name) None None) ;;
                match l with
                | Raised => ret (true, "")
                | Ok [] => ret (true, "")
                | Ok (d0 :: rest) =>
                    match find_doc_id file_name (d0 :: rest) with
                    | Raised => ret (true, "")
                    | Ok i =>
                        if truthy i then ret (true, i)
                        else if hasattr d0 doc_id then
                          match getattr d0 doc_id with
                          | Some i0 => ret (true, i0)
                          | None => ret (true, "")
                          end
                        else ret (true, "")
                    end
                end
            end
        end
  end.

(** *** The poller *)

Definition set_poll (v : ParseVars) (rc fsc : Z) (pc : bool)
    (ps : option string) : ParseVars :=
  mkParseVars (success_count v) (failed_count v) rc fsc pc ps.

Definition add_success (v : ParseVars) : ParseVars :=
  mkParseVars (success_count v + 1) (failed_count v) (retry_count v)
    (failed_status_count v) (parse_completed v) (parse_status v).

Definition add_failed (v : ParseVars) : ParseVars :=
  mkParseVars (success_count v) (failed_count v + 1) (retry_count v)
    (failed_status_count v) (parse_completed v) (parse_status v).

(** The [try] block of one polling round. *)
Definition poll_body (dataset_object : option DataSet) (doc_id : string)
    (max_retries : Z) (v : ParseVars) : Run (ParseVars * flow) :=
  doc_info <- list_documents_in_dataset dataset_object None 1 100 (Some doc_id) ;;
  match doc_info with
  | doc :: _ =>
      match getattr doc doc_run with
      | None => ret (v, Fallthrough)
      | Some st =>
          let v := set_poll v (retry_count v) (failed_status_count v)
                     (parse_completed v) (Some st) in
          if str_in st status_success then
            let v := set_poll v (retry_count v) (failed_status_count v)
                       true (parse_status v) in
            ret (add_success v, Break)
          else if str_in st status_failed then
            let v := set_poll v (retry_count v) (failed_status_count v + 1)
                       (parse_completed v) (parse_status v) in
            if failed_status_count v >=? max_retries then
              let v := set_poll v (retry_count v) (failed_status_count v)
                         true (parse_status v) in
              ret (add_failed v, Break)
            else ret (v, Fallthrough)
          else ret (v, Fallthrough)
      end
  | [] => ret (v, Fallthrough)
  end.

(** The [while failed_status_count < max_retries and not parse_completed]
    loop; [None] when the fuel runs out. *)
Fixpoint poll_while (fuel : nat) (dataset_object : option DataSet)
    (doc_id : string) (max_retries retry_interval : Z) (v : ParseVars)
  : Run (option ParseVars) :=
  if (failed_status_count v <? max_retries) && negb (parse_completed v) then
    match fuel with
    | O => ret None
    | S fuel' =>
        let v := set_poll v (retry_count v + 1) (failed_status_count v)
                   (parse_completed v) (parse_status v) in
        '(v, fl) <- poll_body dataset_object doc_id max_retries v ;;
        match fl with
        | Break => ret (Some v)
        | _ =>
            _ <- (if negb (parse_completed v) then sleep retry_interval
                  else ret tt) ;;
            poll_while fuel' dataset_object doc_id max_retries retry_interval v
        end
    end
  else ret (Some v).

(** The body of [for doc_index, doc_id in enumerate(doc_ids)]. *)
Definition parse_one (fuel : nat) (dataset_object : option DataSet)
    (max_retries retry_interval : Z) (v : ParseVars) (doc_id : string)
  : Run (option ParseVars) :=
  _ <- sleep 1 ;;
  r <- call_async_parse_documents [doc_id] ;;
  match r with
  | Raised => ret (Some (add_failed v))
  | Ok _ =>
      let v := set_poll v 0 0 false None in
      ov <- poll_while fuel dataset_object doc_id max_retries retry_interval v ;;
      match ov with
      | None => ret None
      | Some v =>
          if negb (parse_completed v) then ret (Some (add_failed v))
          else ret (Some v)
      end
  end.

Fixpoint parse_for (fuel : nat) (dataset_object : option DataSet)
    (max_retries retry_interval : Z) (v : ParseVars) (doc_ids : list string)
  : Run (option ParseVars) :=
  match doc_ids with
  | [] => ret (Some v)
  | doc_id :: rest =>
      ov <- parse_one fuel dataset_object max_retries retry_interval v doc_id ;;
      match ov with
      | None => ret None
      | Some v' =>
          parse_for fuel dataset_object max_retries retry_interval v' rest
      end
  end.

Definition parse_vars0 : ParseVars := mkParseVars 0 0 0 0 false None.

(** [parse_documents_in_dataset]; [str(doc_id)] is the identity on the
    string ids of the model. *)
Definition parse_documents_in_dataset (fuel : nat)
    (dataset_object : option DataSet) (doc_ids : list string)
    (max_retries retry_interval : Z) : Run (option bool) :=
  match dataset_object with
  | None => ret (Some false)
  | Some _ =>
      match doc_ids with
      | [] => ret (Some false)
      | _ =>
          match filter truthy doc_ids with
          | [] => ret (Some false)
          | ids =>
              ov <- parse_for fuel dataset_object max_retries retry_interval
                      parse_vars0 ids ;;
              match ov with
              | None => ret None
              | Some v => ret (Some (0 <? success_count v))
              end
          end
      end
  end.

(** *** The folder walk *)

Definition ingest_vars0 : IngestVars := mkIngestVars [] 0 0 0 0.

Definition add_processed (v : IngestVars) : IngestVars :=
  mkIngestVars (uploaded_doc_ids v) (skipped_count v) (replaced_count v)
    (upload_failed_count v) (processed_count v + 1).

Definition add_skipped (v : IngestVars) : IngestVars :=
  mkIngestVars (uploaded_doc_ids v) (skipped_count v + 1) (replaced_count v)
    (upload_failed_count v) (processed_count v).

Definition add_replaced (v : IngestVars) : IngestVars :=
  mkIngestVars (uploaded_doc_ids v) (skipped_count v) (replaced_count v + 1)
    (upload_failed_count v) (processed_count v).

Definition add_upload_failed (v : IngestVars) : IngestVars :=
  mkIngestVars (uploaded_doc_ids v) (skipped_count v) (replaced_count v)
    (upload_failed_count v + 1) (processed_count v).

Definition append_doc_id (v : IngestVars) (i : string) : IngestVars :=
  mkIngestVars (uploaded_doc_ids v ++ [i]) (skipped_count v)
    (replaced_count v) (upload_failed_count v) (processed_count v).

(** The id the replace branch reads off the first match:
    [doc.get('id')] for a dict, [doc.id] when the object has one. *)
Definition deletable_id (doc_to_delete : Doc) : option string :=
  if doc_is_dict doc_to_delete then doc_id doc_to_delete
  else if hasattr doc_to_delete doc_id then getattr doc_to_delete doc_id
  else None.

(** The deletion of the replace branch; a failing delete is logged and
    swallowed. *)
Definition delete_existing (existing_docs_with_name : list Doc) : Run unit :=
  match existing_docs_with_name with
  | doc_to_delete :: _ =>
      if truthy_opt (deletable_id doc_to_delete) then
        match deletable_id doc_to_delete with
        | Some i => _ <- call_delete i ;; ret tt
        | None => ret tt
        end
      else ret tt
  | [] => ret tt
  end.

(** The duplicate check of one file; [Continue] is the [continue] of the
    skip branch. *)
Definition duplicate_check (dataset_object : option DataSet)
    (duplicate_handling filename : string) (v : IngestVars)
  : Run (IngestVars * flow) :=
  if negb (String.eqb duplicate_handling "allow") then
    existing_docs_with_name <-
      list_documents_in_dataset dataset_object (Some filename) 1 100 None ;;
    let is_duplicate := 0 <? Z.of_nat (List.length existing_docs_with_name) in
    if is_duplicate && str_in duplicate_handling ["skip_name"; "skip_content"]
    then ret (add_skipped v, Continue)
    else if is_duplicate && String.eqb duplicate_handling "replace" then
      let v := add_replaced v in
      _ <- delete_existing existing_docs_with_name ;;
      ret (v, Fallthrough)
    else ret (v, Fallthrough)
  else ret (v, Fallthrough).

(** The body of [for filename in os.listdir(absolute_folder_path)]. *)
Definition ingest_file (dataset_object : option DataSet)
    (allowed_extensions : list string) (duplicate_handling : string)
    (v : IngestVars) (f : DirEntry) : Run IngestVars :=
  if endswith_any (lower (de_name f)) allowed_extensions then
    if de_isfile f then
      let v := add_processed v in
      '(v, fl) <- duplicate_check dataset_object duplicate_handling
                    (de_name f) v ;;
      match fl with
      | Continue => ret v
      | _ =>
          '(success, i) <- upload_document_to_dataset dataset_object f ;;
          if success then
            if truthy i then ret (append_doc_id v i) else ret v
          else ret (add_upload_failed v)
      end
    else ret v
  else ret v.

Fixpoint upload_folder_loop (dataset_object : option DataSet)
    (allowed_extensions : list string) (duplicate_handling : string)
    (v : IngestVars) (entries : list DirEntry) : Run IngestVars :=
  match entries with
  | [] => ret v
  | f :: rest =>
      v' <- ingest_file dataset_object allowed_extensions duplicate_handling
              v f ;;
      upload_folder_loop dataset_object allowed_extensions duplicate_handling
        v' rest
  end.

(** [config.get('document_upload', {}) if config else {}]. *)
Definition doc_upload_config (config : option Config) : DocUploadConfig :=
  match config with
  | Some c =>
      match cfg_document_upload c with
      | Some s => s
      | None => mkDocUploadConfig None None None
      end
  | None => mkDocUploadConfig None None None
  end.

Definition get_default {A} (o : option A) (default : A) : A :=
  match o with Some a => a | None => default end.

(** [upload_documents].  [folder] is the listing of the folder, [None]
    when the path is not a directory. *)
Definition upload_documents (fuel : nat) (dataset_object : option DataSet)
    (folder : option (list DirEntry)) (allowed_extensions : list string)
    (config : option Config) : Run (option (list string)) :=
  match dataset_object with
  | None => ret (Some [])
  | Some _ =>
      match folder with
      | None => ret (Some [])
      | Some entries =>
          let duplicate_handling :=
            get_default (cfg_duplicate_handling (doc_upload_config config))
              "skip_name" in
          v <- upload_folder_loop dataset_object allowed_extensions
                 duplicate_handling ingest_vars0 entries ;;
          match uploaded_doc_ids v with
          | [] => ret (Some (uploaded_doc_ids v))
          | _ =>
              let max_retries :=
                get_default (cfg_parse_retry_count (doc_upload_config config))
                  10 in
              let retry_interval :=
                get_default
                  (cfg_parse_retry_interval (doc_upload_config config)) 5 in
              parse_success <-
                parse_documents_in_dataset fuel dataset_object
                  (uploaded_doc_ids v) max_retries retry_interval ;;
              match parse_success with
              | None => ret None
              | Some _ => ret (Some (uploaded_doc_ids v))
              end
          end
      end
  end.

(** The counts of the summary log line of [upload_documents]:
    processed, newly uploaded, skipped, replaced, failed. *)
Definition summary_counts (v : IngestVars) : Z * Z * Z * Z * Z :=
  (processed_count v, Z.of_nat (List.length (uploaded_doc_ids v)),
   skipped_count v, replaced_count v, upload_failed_count v).

(** What the store answers to the first [k] status queries for [doc_id]
    from state [w], asked [retry_interval] seconds apart. *)
Fixpoint poll_observations (k : nat) (dataset_object : option DataSet)
    (doc_id : string) (retry_interval : Z) (w : W) : list (list Doc) :=
  match k with
  | O => []
  | S k' =>
      let '(doc_info, w1, _) :=
        list_documents_in_dataset dataset_object None 1 100 (Some doc_id) w in
      doc_info ::
      poll_observations k' dataset_object doc_id retry_interval
        (api_sleep w1 retry_interval)
  end.

(** The state of the store right after the [k]-th of these status
    queries. *)
Fixpoint poll_store (k : nat) (dataset_object : option DataSet)
    (doc_id : string) (retry_interval : Z) (w : W) : W :=
  match k with
  | O => w
  | S k' =>
      let '(_, w1, _) :=
        list_documents_in_dataset dataset_object None 1 100 (Some doc_id) w in
      match k' with
      | O => w1
      | S _ =>
          poll_store k' dataset_object doc_id retry_interval
            (api_sleep w1 retry_interval)
      end
  end.

End Pipeline.

(** ** A scripted store

    Answers are read off per-call scripts, one per call; an exhausted
    script answers with the empty listing, or with success. *)

Record Stub := mkStub {
  stub_by_id : list (result (list Doc));
  stub_by_keywords : list (result (list Doc));
  stub_upload : list (result unit);
  stub_delete : list (result unit);
  stub_trigger : list (result unit) }.

Definition pop {A} (l : list A) (default : A) : list A * A :=
  match l with
  | [] => ([], default)
  | a :: rest => (rest, a)
  end.

Definition stub_list_documents (s : Stub) (a : ListArgs)
  : Stub * result (list Doc) :=
  if truthy_opt (la_id a) then
    let '(rest, r) := pop (stub_by_id s) (Ok []) in
    (mkStub rest (stub_by_keywords s) (stub_upload s) (stub_delete s)
       (stub_trigger s), r)
  else
    let '(rest, r) := pop (stub_by_keywords s) (Ok []) in
    (mkStub (stub_by_id s) rest (stub_upload s) (stub_delete s)
       (stub_trigger s), r).

#[export] Instance StubAPI : DataSetAPI Stub := {
  api_list_documents := stub_list_documents;
  api_upload_documents s _ _ :=
    let '(rest, r) := pop (stub_upload s) (Ok tt) in
    (mkStub (stub_by_id s) (stub_by_keywords s) rest (stub_delete s)
       (stub_trigger s), r);
  api_delete s _ :=
    let '(rest, r) := pop (stub_delete s) (Ok tt) in
    (mkStub (stub_by_id s) (stub_by_keywords s) (stub_upload s) rest
       (stub_trigger s), r);
  api_async_parse_documents s _ :=
    let '(rest, r) := pop (stub_trigger s) (Ok tt) in
    (mkStub (stub_by_id s) (stub_by_keywords s) (stub_upload s)
       (stub_delete s) rest, r);
  api_sleep s _ := s }.

(** A listing with one SDK document in run status [st]. *)
Definition doc_with_status (i st : string) : Doc :=
  mkDoc false (Some i) (Some i) None (Some st) None.

Definition status (i st : string) : result (list Doc) :=
  Ok [doc_with_status i st].

Definition the_dataset : option DataSet := Some (mkDataSet "kb" "ds-1").

Definition default_extensions : list string :=
  [".txt"; ".pdf"; ".md"; ".docx"; ".doc"].

(** ** Vocabulary of the specification *)

(** The three classes of a status observation: reported success, reported
    failure, and everything else (in progress, unrecognised status, empty
    listing, query error). *)
Inductive obs := ObsSuccess | ObsFailure | ObsOther.

Definition classify (doc_info : list Doc) : obs :=
  match doc_info with
  | doc :: _ =>
      match getattr doc doc_run with
      | Some st =>
          if str_in st status_success then ObsSuccess
          else if str_in st status_failed then ObsFailure
          else ObsOther
      | None => ObsOther
      end
  | [] => ObsOther
  end.

Definition classify_result (r : result (list Doc)) : obs :=
  match r with
  | Ok doc_info => classify doc_info
  | Raised => ObsOther
  end.

Definition is_failure (o : obs) : bool :=
  match o with ObsFailure => true | _ => false end.

Definition is_success (o : obs) : bool :=
  match o with ObsSuccess => true | _ => false end.

(** Number of reported failures in a sequence of observations. *)
Fixpoint count_failures (l : list obs) : Z :=
  match l with
  | [] => 0
  | o :: rest => (if is_failure o then 1 else 0) + count_failures rest
  end.

(** Length of the run of reported failures at the head of a sequence. *)
Fixpoint leading_failures (l : list obs) : Z :=
  match l with
  | ObsFailure :: rest => 1 + leading_failures rest
  | _ => 0
  end.

(** Number of consecutive reported failures at the end of a sequence. *)
Definition trailing_failures (l : list obs) : Z := leading_failures (rev l).

(** The status query for document [d]. *)
Definition by_id (d : string) : ListArgs := mkListArgs (Some d) None None None.

(** The events of a document's lifecycle after a successful trigger, from
    [c] failures counted so far: status queries for [d], [interval] seconds
    apart, up to the first reported success or the reported failure that
    brings the count to the budget [n]; nothing at all when the budget is
    already used up. *)
Inductive poll_segment (n interval : Z) (d : string)
  : Z -> list event -> Prop :=
| ps_budget_spent c :
    n <= c -> poll_segment n interval d c []
| ps_success c r :
    c < n -> classify_result r = ObsSuccess ->
    poll_segment n interval d c [EvList (by_id d) r]
| ps_failed c r :
    c < n -> classify_result r = ObsFailure -> n <= c + 1 ->
    poll_segment n interval d c [EvList (by_id d) r]
| ps_failure_absorbed c r tr :
    classify_result r = ObsFailure -> c + 1 < n ->
    poll_segment n interval d (c + 1) tr ->
    poll_segment n interval d c
      (EvList (by_id d) r :: EvSleep interval :: tr)
| ps_waiting c r tr :
    c < n -> classify_result r = ObsOther ->
    poll_segment n interval d c tr ->
    poll_segment n interval d c
      (EvList (by_id d) r :: EvSleep interval :: tr).

(** The whole lifecycle of one document in the parse stage: the grace
    period, the trigger, and, unless the trigger failed, the polling up to
    a terminal state. *)
Inductive doc_lifecycle (n interval : Z) (d : string) : list event -> Prop :=
| lc_trigger_failed :
    doc_lifecycle n interval d [EvSleep 1; EvAsyncParse [d] Raised]
| lc_polled u tr :
    poll_segment n interval d 0 tr ->
    doc_lifecycle n interval d (EvSleep 1 :: EvAsyncParse [d] (Ok u) :: tr).

(** Events that concern document [d] of the parse stage only. *)
Definition about_doc (d : string) (e : event) : Prop :=
  match e with
  | EvSleep _ => True
  | EvAsyncParse ids _ => ids = [d]
  | EvList a _ => a = by_id d
  | _ => False
  end.

(** Events of the parse stage: triggers, status queries and waits. *)
Definition parse_stage_event (e : event) : bool :=
  match e with
  | EvAsyncParse _ _ => true
  | EvSleep _ => true
  | EvList a _ => truthy_opt (la_id a)
  | _ => false
  end.

Definition is_upload (e : event) : bool :=
  match e with EvUpload _ _ _ => true | _ => false end.

Definition is_delete (e : event) : bool :=
  match e with EvDelete _ _ => true | _ => false end.

Definition is_status_query (e : event) : bool :=
  match e with EvList a _ => truthy_opt (la_id a) | _ => false end.

Definition is_trigger (e : event) : bool :=
  match e with EvAsyncParse _ _ => true | _ => false end.

(** The decision of the duplicate check on one file, read off its effect
    on the counters and the control flow. *)
Inductive decision := ALLOW | SKIP | REPLACE.

Definition decision_of (v v' : IngestVars) (fl : flow) : decision :=
  match fl with
  | Continue => SKIP
  | _ => if replaced_count v <? replaced_count v' then REPLACE else ALLOW
  end.

(** A status query answered with a reported success. *)
Definition reported_success (e : event) : bool :=
  match e with
  | EvList a r => truthy_opt (la_id a) && is_success (classify_result r)
  | _ => false
  end.

Definition count_success (tr : list event) : Z :=
  Z.of_nat (List.length (filter reported_success tr)).

(** A finished parse stage: one complete lifecycle per document, in the
    order of the batch, and nothing else. *)
Definition parse_trace_complete (n interval : Z) (ids : list string)
    (tr : list event) : Prop :=
  exists segs,
    tr = List.concat segs /\ Forall2 (doc_lifecycle n interval) ids segs.

(** A parse stage still running: complete lifecycles for the documents
    [done], then events about the next document [d] only, and nothing yet
    for the documents [todo]. *)
Definition parse_trace_partial (n interval : Z) (ids : list string)
    (tr : list event) : Prop :=
  exists done d todo segs rest,
    ids = done ++ d :: todo /\
    tr = List.concat segs ++ rest /\
    Forall2 (doc_lifecycle n interval) done segs /\
    Forall (about_doc d) rest.

(** The kind of a call, without its answer. *)
Inductive step :=
| SLookup (keywords : option string)
| SStatus (id : string)
| SUpload (display_name : string)
| SDelete (id : string)
| STrigger (ids : list string)
| SWait (secs : Z).

Definition step_of (e : event) : step :=
  match e with
  | EvList a _ =>
      match la_id a with
      | Some i => if truthy i then SStatus i else SLookup (la_keywords a)
      | None => SLookup (la_keywords a)
      end
  | EvUpload n _ _ => SUpload n
  | EvDelete i _ => SDelete i
  | EvAsyncParse ids _ => STrigger ids
  | EvSleep secs => SWait secs
  end.

(** End-to-end handling of one document before the next: between two
    uploads a trigger is issued. *)
Definition end_to_end_per_document (tr : list event) : Prop :=
  forall t1 u1 t2 u2 t3,
    tr = t1 ++ u1 :: t2 ++ u2 :: t3 ->
    is_upload u1 = true -> is_upload u2 = true ->
    existsb is_trigger t2 = true.

(** The polling loop asks for [n] consecutive reported failures before it
    declares a document failed. *)
Definition failed_only_after_consecutive {W : Type} {API : DataSetAPI W}
    (dataset_object : option DataSet) (doc_id : string)
    (n interval : Z) (w : W) : Prop :=
  forall fuel v v' w' tr,
    poll_while fuel dataset_object doc_id n interval
      (set_poll v 0 0 false None) w = (Some v', w', tr) ->
    failed_count v' = failed_count v + 1 ->
    n <= trailing_failures
           (map classify
              (poll_observations (Z.to_nat (retry_count v')) dataset_object
                 doc_id interval w)).

(** The settings [upload_documents] reads from the configuration. *)
Definition config_policy (config : option Config) : string :=
  get_default (cfg_duplicate_handling (doc_upload_config config)) "skip_name".

Definition config_max_retries (config : option Config) : Z :=
  get_default (cfg_parse_retry_count (doc_upload_config config)) 10.

Definition config_retry_interval (config : option Config) : Z :=
  get_default (cfg_parse_retry_interval (doc_upload_config config)) 5.

(** The ids the folder walk of [upload_documents] accepts; none when the
    dataset handle or the folder is invalid. *)
Definition accepted_ids {W : Type} {API : DataSetAPI W}
    (dataset_object : option DataSet) (folder : option (list DirEntry))
    (allowed_extensions : list string) (config : option Config) (w : W)
  : list string :=
  match dataset_object, folder with
  | Some _, Some entries =>
      uploaded_doc_ids
        (fst (fst (upload_folder_loop dataset_object allowed_extensions
                     (config_policy config) ingest_vars0 entries w)))
  | _, _ => []
  end.

(** No trigger is ever issued for the empty identifier. *)
Definition triggers_valid_id (e : event) : Prop :=
  match e with
  | EvAsyncParse ids _ => ~ In "" ids
  | _ => True
  end.

(** What one round does to the variables, by the class of the answer. *)
Definition round_post (max_retries : Z) (o : obs) (v v' : ParseVars) (fl : flow) : Prop :=
  retry_count v' = retry_count v /\
  match o with
  | ObsSuccess =>
      fl = Break /\ parse_completed v' = true /\
      success_count v' = success_count v + 1 /\
      failed_count v' = failed_count v /\
      failed_status_count v' = failed_status_count v
  | ObsFailure =>
      failed_status_count v' = failed_status_count v + 1 /\
      success_count v' = success_count v /\
      if failed_status_count v + 1 >=? max_retries then
        fl = Break /\ parse_completed v' = true /\
        failed_count v' = failed_count v + 1
      else
        fl = Fallthrough /\ parse_completed v' = parse_completed v /\
        failed_count v' = failed_count v
  | ObsOther =>
      fl = Fallthrough /\ parse_completed v' = parse_completed v /\
      success_count v' = success_count v /\
      failed_count v' = failed_count v /\
      failed_status_count v' = failed_status_count v
  end.

(** The loop condition. *)
Definition running (max_retries : Z) (v : ParseVars) : bool :=
  (failed_status_count v <? max_retries) && negb (parse_completed v).

(** ** Scenarios *)

(** Three documents with budget two: the first parses, the second and the
    third use up the budget. *)
Definition three_docs_store : Stub :=
  mkStub
    [status "d1" "DONE";
     status "d2" "failed"; status "d2" "FAIL";
     status "d3" "error"; status "d3" "RUNNING"; status "d3" "failed"]
    [] [] [] [].

(** A store that reports failed, running, failed for one document. *)
Definition flaky_store : Stub :=
  mkStub [status "d1" "failed"; status "d1" "RUNNING"; status "d1" "failed"]
    [] [] [] [].

(** Two eligible files under the [allow] policy; the store assigns the
    ids [id-a] and [id-b] and parses both documents at the first query. *)
Definition two_files : list DirEntry :=
  [mkDirEntry "a.txt" true true (Some "A");
   mkDirEntry "b.txt" true true (Some "B")].

Definition config_with_policy (policy : string) : option Config :=
  Some (mkConfig (Some (mkDocUploadConfig (Some policy) None None))).

Definition two_files_store : Stub :=
  mkStub
    [status "id-a" "DONE"; status "id-b" "DONE"]
    [Ok [mkDoc false (Some "id-a") (Some "a.txt") None None None];
     Ok [mkDoc false (Some "id-b") (Some "b.txt") None None None]]
    [] [] [].

(** One eligible file. *)
Definition a_txt : DirEntry := mkDirEntry "a.txt" true true (Some "A").

(** A listing entry that matches [a.txt] but carries no identifier: a dict
    without the [id] key. *)
Definition idless_doc : Doc :=
  mkDoc true None (Some "a.txt") None None None.

(** The store finds [idless_doc] for the duplicate lookup of [a.txt]. *)
Definition idless_store : Stub :=
  mkStub [] [Ok [idless_doc]; Ok [idless_doc]] [] [] [].

(** The store finds an SDK document [old-a] for the duplicate lookup. *)
Definition duplicate_store : Stub :=
  mkStub []
    [Ok [mkDoc false (Some "old-a") (Some "a.txt") None None None]]
    [] [] [].

(** The store accepts the upload and then lists nothing under the name. *)
Definition forgetful_store : Stub := mkStub [] [Ok []] [] [] [].

(** ** Dataset lookup and creation

    [get_dataset_by_name] talks to the client object, not to a dataset:
    the client's two calls are a second interface of the store, with
    events of their own. *)

(** A literal of the source: number, boolean, string, decimal number (by
    its digits), or dictionary. *)
#[warnings="-register-all"]
Inductive literal :=
| LInt (z : Z)
| LBool (b : bool)
| LStr (s : string)
| LDec (digits : string)
| LDict (fields : list (string * literal)).

(** The keyword arguments of [client.create_dataset]; the embedding model
    is only passed when one is given. *)
Record CreateParams := mkCreateParams {
  cp_name : string;
  cp_chunk_method : string;
  cp_parser_config : literal;
  cp_embedding_model : option string }.

(** The client handle; a falsy handle is [None : option Client]. *)
Record Client := mkClient {
  client_api_key : string;
  client_base_url : string }.

Class ClientAPI (W : Type) := {
  api_list_datasets : W -> string -> W * result (list DataSet);
  api_create_dataset : W -> CreateParams -> W * result DataSet }.

Inductive client_event :=
| EvListDatasets (name : string) (r : result (list DataSet))
| EvCreateDataset (p : CreateParams) (r : result DataSet).

(** The dictionary handed to [DataSet.ParserConfig]. *)
Definition parser_config : literal :=
  LDict
    [("chunk_token_num", LInt 128);
     ("delimiter", LStr "\n!?;。；！？");
     ("html4excel", LBool false);
     ("layout_recognize", LStr "DeepDOC");
     ("raptor",
      LDict
        [("use_raptor", LBool false);
         ("prompt", LStr "请总结以下段落。 小心数字，不要编造。 段落如下：
{cluster_content}
以上就是你需要总结的内容。");
         ("max_token", LInt 256);
         ("threshold", LDec "0.10");
         ("max_cluster", LInt 64);
         ("random_seed", LInt 0)])].

(** The [for dataset in datasets] loop: the first dataset of that name. *)
Fixpoint find_dataset (dataset_name : string) (datasets : list DataSet)
  : option DataSet :=
  match datasets with
  | [] => None
  | dataset :: rest =>
      if String.eqb (ds_name dataset) dataset_name then Some dataset
      else find_dataset dataset_name rest
  end.

(** [create_params], with the embedding model when it is truthy. *)
Definition create_params (dataset_name : string)
    (embedding_model : option string) : CreateParams :=
  mkCreateParams dataset_name "naive" parser_config
    (if truthy_opt embedding_model then embedding_model else None).

(** [get_dataset_by_name]: the dataset, or [None] when the client is
    invalid or the creation raises. *)
Definition get_dataset_by_name {W : Type} {C : ClientAPI W}
    (client : option Client) (dataset_name : string)
    (embedding_model : option string) (w : W)
  : option DataSet * W * list client_event :=
  match client with
  | None => (None, w, [])
  | Some _ =>
      let '(w1, r) := api_list_datasets w dataset_name in
      let datasets := match r with Ok l => l | Raised => [] end in
      match find_dataset dataset_name datasets with
      | Some dataset => (Some dataset, w1, [EvListDatasets dataset_name r])
      | None =>
          let '(w2, c) :=
            api_create_dataset w1 (create_params dataset_name embedding_model)
          in
          (match c with Ok new_dataset => Some new_dataset | Raised => None end,
           w2,
           [EvListDatasets dataset_name r;
            EvCreateDataset (create_params dataset_name embedding_model) c])
      end
  end.

(** ** The document-upload section of [main]

    What this section reads from the [document_upload] dictionary:
    whether [enabled] is truthy, and three keys that may be missing. *)
Record MainUploadConfig := mkMainUploadConfig {
  mu_enabled : bool;
  mu_folder_path : option string;
  mu_dataset_prefix : option string;
  mu_embedding_model : option string }.

(** [target_dataset_name]; [basename_normpath] is
    [os.path.basename(os.path.normpath(.))]. *)
Definition target_dataset_name (basename_normpath : string -> string)
    (mc : MainUploadConfig) : option string :=
  if truthy_opt (mu_folder_path mc) then
    match mu_folder_path mc with
    | Some folder_path =>
        let folder_name := basename_normpath folder_path in
        if truthy folder_name then
          Some (get_default (mu_dataset_prefix mc) "Py_" ++ folder_name)%string
        else None
    | None => None
    end
  else None.

(** The section of [main] between the client set-up and the grid search.
    [listdir] is the file system: the listing of a folder path, [None]
    when it is not a directory.  [mc] and [config] are two views of the one
    configuration dictionary. *)
Definition main_upload_section {W : Type} {C : ClientAPI W}
    {API : DataSetAPI W} (fuel : nat)
    (basename_normpath : string -> string)
    (listdir : string -> option (list DirEntry))
    (client : option Client) (mc : MainUploadConfig)
    (config : option Config) (w : W)
  : W * list client_event * list event :=
  if mu_enabled mc then
    if truthy_opt (target_dataset_name basename_normpath mc)
       && truthy_opt (mu_folder_path mc)
       && truthy_opt (mu_embedding_model mc) then
      match target_dataset_name basename_normpath mc, mu_folder_path mc with
      | Some name, Some folder_path =>
          let '(dataset_obj, w1, ct) :=
            get_dataset_by_name client name (mu_embedding_model mc) w in
          match dataset_obj with
          | Some dataset =>
              let '(_, w2, t) :=
                upload_documents fuel (Some dataset) (listdir folder_path)
                  default_extensions config w1 in
              (w2, ct, t)
          | None => (w1, ct, [])
          end
      | _, _ => (w, [], [])
      end
    else (w, [], [])
  else (w, [], []).

(** ** Further vocabulary *)

(** A directory entry the folder walk handles: allowed extension, compared
    in lower case, and a regular file. *)
Definition eligible (allowed_extensions : list string) (f : DirEntry) : bool :=
  endswith_any (lower (de_name f)) allowed_extensions && de_isfile f.

(** A file [upload_document_to_dataset] can read. *)
Definition readable (f : DirEntry) : bool :=
  de_exists f && match de_blob f with Some _ => true | None => false end.

Definition is_upper_ascii (c : ascii) : bool :=
  (65 <=? nat_of_ascii c)%nat && (nat_of_ascii c <=? 90)%nat.

(** The string holds an upper-case ASCII letter. *)
Fixpoint has_upper (s : string) : bool :=
  match s with
  | EmptyString => false
  | String c s' => is_upper_ascii c || has_upper s'
  end.

(** The arguments of the duplicate lookup for a file name. *)
Definition lookup_args (filename : string) : ListArgs :=
  if truthy filename then mkListArgs None (Some filename) (Some 1) (Some 100)
  else mkListArgs None None (Some 1) (Some 100).

(** A listing call that is not a status query. *)
Definition is_lookup (e : event) : bool :=
  match e with
  | EvList a _ => negb (truthy_opt (la_id a))
  | _ => false
  end.

Definition is_listing (e : event) : bool :=
  match e with EvList _ _ => true | _ => false end.

Definition count_events (p : event -> bool) (tr : list event) : Z :=
  Z.of_nat (List.length (filter p tr)).

(** The id lists of the triggers of a trace, in order. *)
Fixpoint triggered (tr : list event) : list (list string) :=
  match tr with
  | [] => []
  | EvAsyncParse ids _ :: rest => ids :: triggered rest
  | _ :: rest => triggered rest
  end.

(** A store in which every listing finds a document. *)
Definition listed_doc : Doc :=
  mkDoc false (Some "old") (Some "old.txt") None (Some "DONE") None.

Definition AlwaysListedAPI : DataSetAPI unit := {|
  api_list_documents := fun w _ => (w, Ok [listed_doc]);
  api_upload_documents := fun w _ _ => (w, Ok tt);
  api_delete := fun w _ => (w, Ok tt);
  api_async_parse_documents := fun w _ => (w, Ok tt);
  api_sleep := fun w _ => w |}.

(** A client whose listing is scripted and whose creation succeeds with a
    dataset of the requested name, or raises. *)
Record ClientStub := mkClientStub {
  cs_listing : result (list DataSet);
  cs_create_ok : bool;
  cs_store : Stub }.

Definition ClientStubAPI : ClientAPI ClientStub := {|
  api_list_datasets := fun w _ => (w, cs_listing w);
  api_create_dataset := fun w p =>
    (w, if cs_create_ok w then Ok (mkDataSet (cp_name p) "new-id")
        else Raised) |}.

Definition ClientStubDataSetAPI : DataSetAPI ClientStub := {|
  api_list_documents := fun w a =>
    let '(s, r) := stub_list_documents (cs_store w) a in
    (mkClientStub (cs_listing w) (cs_create_ok w) s, r);
  api_upload_documents := fun w n b =>
    let '(s, r) := api_upload_documents (cs_store w) n b in
    (mkClientStub (cs_listing w) (cs_create_ok w) s, r);
  api_delete := fun w i =>
    let '(s, r) := api_delete (cs_store w) i in
    (mkClientStub (cs_listing w) (cs_create_ok w) s, r);
  api_async_parse_documents := fun w ids =>
    let '(s, r) := api_async_parse_documents (cs_store w) ids in
    (mkClientStub (cs_listing w) (cs_create_ok w) s, r);
  api_sleep := fun w _ => w |}.

(** A store whose scripts are all used up: every listing is empty. *)
Definition silent_store : Stub := mkStub [] [] [] [] [].

(** Two documents of a listing: one under another name, one under the
    name [a.txt]. *)
Definition other_doc : Doc :=
  mkDoc false (Some "id-z") (Some "z-a.txt") None None None.

Definition named_doc : Doc :=
  mkDoc false (Some "id-a") (Some "a.txt") None None None.

(** The store lists [other_doc] before [named_doc] after the upload. *)
Definition two_listed_store : Stub :=
  mkStub [] [Ok [other_doc; named_doc]] [] [] [].

(** The store lists only [other_doc] after the upload. *)
Definition misnamed_store : Stub := mkStub [] [Ok [other_doc]] [] [] [].

(** A client whose store lists the datasets [kb-old] and [kb]. *)
Definition listing_client : ClientStub :=
  mkClientStub (Ok [mkDataSet "kb-old" "ds-0"; mkDataSet "kb" "ds-1"]) true
    silent_store.

(** A client whose listing raises. *)
Definition failing_client : ClientStub := mkClientStub Raised true silent_store.

Definition the_client : Client := mkClient "key" "http://localhost".

(** A configuration in which the upload is disabled. *)
Definition upload_disabled : MainUploadConfig :=
  mkMainUploadConfig false (Some "docs/policies") None (Some "bge-m3").

(** ** The definitions on small inputs *)

Example lower_mixed_case : lower "Report.PDF" = "report.pdf".
Proof. reflexivity. Qed.

Example extension_filter_accepts :
  endswith_any (lower "Report.PDF") default_extensions = true.
Proof. reflexivity. Qed.

Example extension_filter_rejects :
  endswith_any (lower "notes.png") default_extensions = false.
Proof. reflexivity. Qed.

Example classify_done : classify [doc_with_status "d" "DONE"] = ObsSuccess.
Proof. reflexivity. Qed.

Example classify_fail : classify [doc_with_status "d" "FAIL"] = ObsFailure.
Proof. reflexivity. Qed.

Example classify_running : classify [doc_with_status "d" "RUNNING"] = ObsOther.
Proof. reflexivity. Qed.

Example classify_dict : classify [idless_doc] = ObsOther.
Proof. reflexivity. Qed.

Example classify_empty_listing : classify [] = ObsOther.
Proof. reflexivity. Qed.

Example trailing_failures_interleaved :
  trailing_failures [ObsFailure; ObsOther; ObsFailure] = 1.
Proof. reflexivity. Qed.

Example upload_recovers_id :
  fst (fst (upload_document_to_dataset the_dataset a_txt
              (mkStub [] [Ok [mkDoc false (Some "id-a") (Some "a.txt") None
                                None None]] [] [] [])))
  = (true, "id-a").
Proof. reflexivity. Qed.

(** ** Properties of the poller *)

Section PollerProperties.

Context {W : Type} {API : DataSetAPI W}.
Variable dataset_object : option DataSet.
Variable doc_id : string.
Variables max_retries retry_interval : Z.

Local Abbreviation query :=
  (list_documents_in_dataset dataset_object None 1 100 (Some doc_id)).
Local Abbreviation poll fuel :=
  (poll_while fuel dataset_object doc_id max_retries retry_interval).
Local Abbreviation observations k :=
  (poll_observations k dataset_object doc_id retry_interval).
Local Abbreviation store_after k :=
  (poll_store k dataset_object doc_id retry_interval).
Local Abbreviation fresh v := (set_poll v 0 0 false None).

Lemma poll_body_round (v : ParseVars) (w : W) :
  exists v' fl,
    poll_body dataset_object doc_id max_retries v w
    = (v', fl, snd (fst (query w)), snd (query w)) /\
    round_post max_retries (classify (fst (fst (query w)))) v v' fl.
Proof.
  unfold poll_body, bind.
  destruct (query w) as [[doc_info w1] t1]. cbn [fst snd].
  unfold round_post, classify.
  destruct doc_info as [|doc rest].
  - eexists _, _. cbn. rewrite app_nil_r. repeat split; reflexivity.
  - destruct (getattr doc doc_run) as [st|].
    + destruct (str_in st status_success).
      * eexists _, _. cbn. rewrite app_nil_r. repeat split; reflexivity.
      * destruct (str_in st status_failed).
        -- cbn [set_poll failed_status_count retry_count parse_completed
                 parse_status success_count failed_count].
           destruct (failed_status_count v + 1 >=? max_retries);
             eexists _, _; cbn; rewrite app_nil_r; repeat split; reflexivity.
        -- eexists _, _. cbn. rewrite app_nil_r. repeat split; reflexivity.
    + eexists _, _. cbn. rewrite app_nil_r. repeat split; reflexivity.
Qed.

(** One unfolding of the loop. *)
Lemma poll_while_round (fuel : nat) (v : ParseVars) (w : W) :
  running max_retries v = true ->
  exists v1 fl,
    round_post max_retries (classify (fst (fst (query w))))
      (set_poll v (retry_count v + 1) (failed_status_count v)
         (parse_completed v) (parse_status v)) v1 fl /\
    poll (S fuel) v w =
    match fl with
    | Break => (Some v1, snd (fst (query w)), snd (query w))
    | _ =>
        let '(r, w2, t2) :=
          poll fuel v1 (api_sleep (snd (fst (query w))) retry_interval) in
        (r, w2, snd (query w) ++ EvSleep retry_interval :: t2)
    end.
Proof.
  intros Hrun.
  destruct (poll_body_round
              (set_poll v (retry_count v + 1) (failed_status_count v)
                 (parse_completed v) (parse_status v)) w)
    as (v1 & fl & Hbody & Hpost).
  exists v1, fl. split; [exact Hpost|].
  cbn [poll_while]. unfold running in Hrun. rewrite Hrun.
  unfold bind at 1. rewrite Hbody.
  assert (Hpc : fl <> Break -> parse_completed v1 = false).
  { intros Hfl. apply andb_prop in Hrun. destruct Hrun as [_ Hpc].
    apply negb_true_iff in Hpc.
    destruct Hpost as [_ Hpost].
    destruct (classify (fst (fst (query w)))).
    - destruct Hpost as [-> _]. congruence.
    - destruct Hpost as (_ & _ & Hpost).
      destruct (failed_status_count _ + 1 >=? max_retries).
      + destruct Hpost as [-> _]. congruence.
      + destruct Hpost as (_ & -> & _). exact Hpc.
    - destruct Hpost as (_ & -> & _). exact Hpc. }
  destruct fl.
  - cbn. rewrite app_nil_r. reflexivity.
  - unfold bind. rewrite Hpc by discriminate. cbn [negb sleep].
    destruct (poll fuel v1 _) as [[r w2] t2]. reflexivity.
  - unfold bind. rewrite Hpc by discriminate. cbn [negb sleep].
    destruct (poll fuel v1 _) as [[r w2] t2]. reflexivity.
Qed.

Lemma poll_while_stopped (fuel : nat) (v : ParseVars) (w : W) :
  running max_retries v = false -> poll fuel v w = (Some v, w, []).
Proof.
  intros Hrun. unfold running in Hrun.
  destruct fuel; cbn [poll_while]; rewrite Hrun; reflexivity.
Qed.

Lemma observations_S (k : nat) (w : W) :
  observations (S k) w
  = fst (fst (query w))
    :: observations k (api_sleep (snd (fst (query w))) retry_interval).
Proof.
  cbn [poll_observations]. destruct (query w) as [[doc_info w1] t1].
  reflexivity.
Qed.

Lemma observations_firstn (k j : nat) :
  forall w : W, firstn k (observations (k + j) w) = observations k w.
Proof.
  induction k as [|k IH]; intros w; [reflexivity|].
  cbn [Nat.add]. rewrite !observations_S. cbn [firstn]. rewrite IH.
  reflexivity.
Qed.

Lemma store_after_1 (w : W) : store_after 1 w = snd (fst (query w)).
Proof.
  cbn [poll_store]. destruct (query w) as [[doc_info w1] t1]. reflexivity.
Qed.

Lemma store_after_SS (k : nat) (w : W) :
  store_after (S (S k)) w
  = store_after (S k) (api_sleep (snd (fst (query w))) retry_interval).
Proof.
  change (store_after (S (S k)) w)
    with (let '(_, w1, _) := query w in
          store_after (S k) (api_sleep w1 retry_interval)).
  destruct (query w) as [[doc_info w1] t1]. reflexivity.
Qed.

Lemma count_failures_nonneg (l : list obs) : 0 <= count_failures l.
Proof.
  induction l as [|o l IH]; cbn [count_failures]; [lia|].
  destruct (is_failure o); lia.
Qed.

Lemma count_failures_app (l1 l2 : list obs) :
  count_failures (l1 ++ l2) = count_failures l1 + count_failures l2.
Proof.
  induction l1 as [|o l1 IH]; cbn [count_failures app]; [lia|].
  rewrite IH. lia.
Qed.

Lemma running_spec (v : ParseVars) :
  running max_retries v = true <->
  failed_status_count v < max_retries /\ parse_completed v = false.
Proof.
  unfold running. rewrite andb_true_iff, Z.ltb_lt, negb_true_iff. tauto.
Qed.

(** Completeness of the loop: when the store's answers are [pre] followed
    by a terminal observation [last], the loop stops at [last]. *)
Lemma poll_while_reaches (pre : list obs) :
  forall (last : obs) (fuel : nat) (v : ParseVars) (w : W),
    map classify (observations (S (List.length pre)) w) = pre ++ [last] ->
    ~ In ObsSuccess pre ->
    parse_completed v = false ->
    failed_status_count v + count_failures pre < max_retries ->
    last = ObsSuccess \/
    (last = ObsFailure /\
     max_retries <= failed_status_count v + count_failures pre + 1) ->
    (List.length pre < fuel)%nat ->
    exists v' tr,
      poll fuel v w = (Some v', store_after (S (List.length pre)) w, tr) /\
      parse_completed v' = true /\
      retry_count v' = retry_count v + Z.of_nat (List.length pre) + 1 /\
      failed_status_count v'
      = failed_status_count v + count_failures (pre ++ [last]) /\
      success_count v' = success_count v + (if is_success last then 1 else 0) /\
      failed_count v' = failed_count v + (if is_failure last then 1 else 0).
Proof.
  induction pre as [|o pre IH]; intros last fuel v w Hobs Hns Hpc Hlt Hlast Hfuel.
  - destruct fuel as [|fuel]; [cbn in Hfuel; lia|].
    rewrite observations_S in Hobs. cbn in Hobs.
    injection Hobs as Hobs. cbn [count_failures] in Hlt.
    destruct (poll_while_round fuel v w) as (v1 & fl & Hpost & Heq).
    { apply running_spec. split; [lia|exact Hpc]. }
    rewrite Hobs in Hpost. destruct Hpost as [Hrc Hpost].
    cbn [set_poll retry_count failed_status_count parse_completed
         success_count failed_count] in Hrc, Hpost.
    cbn [List.length]. rewrite store_after_1.
    destruct Hlast as [->|[-> Hmax]].
    + destruct Hpost as (-> & Hc & Hs & Hf & Hfs).
      eexists _, _. split; [exact Heq|].
      cbn [count_failures is_failure is_success app List.length].
      repeat split; try assumption; lia.
    + destruct Hpost as (Hfs & Hs & Hpost).
      cbn [count_failures] in Hmax.
      destruct (Z.geb_spec (failed_status_count v + 1) max_retries) as [_|Hn];
        [|lia].
      destruct Hpost as (-> & Hc & Hf).
      eexists _, _. split; [exact Heq|].
      cbn [count_failures is_failure is_success app List.length].
      repeat split; try assumption; lia.
  - destruct fuel as [|fuel]; [cbn in Hfuel; lia|].
    cbn [List.length] in Hobs, Hfuel.
    rewrite observations_S in Hobs. cbn [map app] in Hobs.
    injection Hobs as Ho Hobs.
    assert (Ho' : o <> ObsSuccess) by (intros ->; apply Hns; left; reflexivity).
    assert (Hns' : ~ In ObsSuccess pre) by (intros Hin; apply Hns; right; exact Hin).
    cbn [count_failures] in Hlt, Hlast.
    pose proof (count_failures_nonneg pre) as Hnn.
    destruct (poll_while_round fuel v w) as (v1 & fl & Hpost & Heq).
    { apply running_spec. split; [|exact Hpc]. destruct (is_failure o); lia. }
    rewrite Ho in Hpost. destruct Hpost as [Hrc Hpost].
    cbn [set_poll retry_count failed_status_count parse_completed
         success_count failed_count] in Hrc, Hpost.
    assert (Hstep : fl = Fallthrough /\ parse_completed v1 = false /\
                    success_count v1 = success_count v /\
                    failed_count v1 = failed_count v /\
                    failed_status_count v1
                    = failed_status_count v + (if is_failure o then 1 else 0)).
    { destruct o; [congruence| |].
      - destruct Hpost as (Hfs & Hs & Hpost). cbn [is_failure] in *.
        destruct (Z.geb_spec (failed_status_count v + 1) max_retries) as [Hn|_];
          [lia|].
        destruct Hpost as (-> & Hc & Hf). repeat split; congruence.
      - destruct Hpost as (-> & Hc & Hs & Hf & Hfs). cbn [is_failure].
        repeat split; try congruence. lia. }
    destruct Hstep as (-> & Hc1 & Hs1 & Hf1 & Hfs1).
    destruct (IH last fuel v1 (api_sleep (snd (fst (query w))) retry_interval))
      as (v' & tr & Hrun & Hc' & Hr' & Hfs' & Hs' & Hf'); try assumption.
    + lia.
    + destruct Hlast as [->|[-> Hmax]]; [left; reflexivity|right].
      split; [reflexivity|lia].
    + lia.
    + rewrite Hrun in Heq. cbn [List.length]. rewrite store_after_SS.
      eexists _, _. split; [exact Heq|].
      cbn [count_failures app List.length].
      repeat split; try assumption; lia.
Qed.

(** With fuel for no more rounds than there are non-terminal answers, the
    loop is still polling. *)
Lemma poll_while_starved (fuel : nat) :
  forall (pre : list obs) (v : ParseVars) (w : W),
    (fuel <= List.length pre)%nat ->
    map classify (observations (List.length pre) w) = pre ->
    ~ In ObsSuccess pre ->
    parse_completed v = false ->
    failed_status_count v + count_failures pre < max_retries ->
    fst (fst (poll fuel v w)) = None.
Proof.
  induction fuel as [|fuel IH]; intros pre v w Hfuel Hobs Hns Hpc Hlt.
  - pose proof (count_failures_nonneg pre) as Hnn.
    cbn [poll_while]. rewrite Hpc.
    destruct (Z.ltb_spec (failed_status_count v) max_retries); [|lia].
    reflexivity.
  - destruct pre as [|o pre]; [cbn in Hfuel; lia|].
    cbn [List.length] in Hobs, Hfuel.
    rewrite observations_S in Hobs. cbn [map] in Hobs.
    injection Hobs as Ho Hobs.
    assert (Ho' : o <> ObsSuccess) by (intros ->; apply Hns; left; reflexivity).
    assert (Hns' : ~ In ObsSuccess pre) by (intros Hin; apply Hns; right; exact Hin).
    cbn [count_failures] in Hlt.
    pose proof (count_failures_nonneg pre) as Hnn.
    destruct (poll_while_round fuel v w) as (v1 & fl & Hpost & Heq).
    { apply running_spec. split; [|exact Hpc]. destruct (is_failure o); lia. }
    rewrite Ho in Hpost. destruct Hpost as [Hrc Hpost].
    cbn [set_poll retry_count failed_status_count parse_completed
         success_count failed_count] in Hrc, Hpost.
    assert (Hstep : fl = Fallthrough /\ parse_completed v1 = false /\
                    failed_status_count v1
                    = failed_status_count v + (if is_failure o then 1 else 0)).
    { destruct o; [congruence| |].
      - destruct Hpost as (Hfs & Hs & Hpost). cbn [is_failure] in *.
        destruct (Z.geb_spec (failed_status_count v + 1) max_retries) as [Hn|_];
          [lia|].
        destruct Hpost as (-> & Hc & Hf). repeat split; congruence.
      - destruct Hpost as (-> & Hc & Hs & Hf & Hfs). cbn [is_failure].
        repeat split; try congruence. lia. }
    destruct Hstep as (-> & Hc1 & Hfs1).
    rewrite Heq.
    specialize (IH pre v1 (api_sleep (snd (fst (query w))) retry_interval)
                  ltac:(lia) Hobs Hns' Hc1 ltac:(lia)).
    destruct (poll fuel v1 _) as [[r w2] t2]. exact IH.
Qed.

Lemma observations_init (pre : list obs) (last : obs) (w : W) :
  map classify (observations (S (List.length pre)) w) = pre ++ [last] ->
  map classify (observations (List.length pre) w) = pre.
Proof.
  intros Hobs.
  rewrite <- (observations_firstn (List.length pre) 1 w).
  rewrite Nat.add_1_r, <- firstn_map, Hobs.
  rewrite firstn_app, Nat.sub_diag, firstn_all. cbn. apply app_nil_r.
Qed.

(** Soundness of the loop: when the loop, entered running, returns, the
    store's answers were non-terminal ones followed by a terminal one. *)
Lemma poll_while_returned (fuel : nat) :
  forall (v : ParseVars) (w : W) (v' : ParseVars) (w' : W) (tr : list event),
    running max_retries v = true ->
    poll fuel v w = (Some v', w', tr) ->
    exists pre last,
      map classify (observations (S (List.length pre)) w) = pre ++ [last] /\
      ~ In ObsSuccess pre /\
      failed_status_count v + count_failures pre < max_retries /\
      (last = ObsSuccess \/
       (last = ObsFailure /\
        max_retries <= failed_status_count v + count_failures pre + 1)) /\
      parse_completed v' = true /\
      retry_count v' = retry_count v + Z.of_nat (List.length pre) + 1 /\
      success_count v' = success_count v + (if is_success last then 1 else 0) /\
      failed_count v' = failed_count v + (if is_failure last then 1 else 0).
Proof.
  induction fuel as [|fuel IH]; intros v w v' w' tr Hrun Hres.
  - cbn [poll_while] in Hres. unfold running in Hrun. rewrite Hrun in Hres.
    discriminate.
  - destruct (poll_while_round fuel v w Hrun) as (v1 & fl & Hpost & Heq).
    rewrite Heq in Hres. clear Heq.
    apply running_spec in Hrun. destruct Hrun as [Hlt Hpc].
    destruct Hpost as [Hrc Hpost].
    cbn [set_poll retry_count failed_status_count parse_completed
         success_count failed_count] in Hrc, Hpost.
    remember (classify (fst (fst (query w)))) as o eqn:Ho.
    assert (Hbreak : fl = Break -> v1 = v' ->
              exists pre last,
                map classify (observations (S (List.length pre)) w)
                = pre ++ [last] /\
                ~ In ObsSuccess pre /\
                failed_status_count v + count_failures pre < max_retries /\
                (last = ObsSuccess \/
                 (last = ObsFailure /\
                  max_retries
                  <= failed_status_count v + count_failures pre + 1)) /\
                parse_completed v' = true /\
                retry_count v' = retry_count v + Z.of_nat (List.length pre) + 1 /\
                success_count v'
                = success_count v + (if is_success last then 1 else 0) /\
                failed_count v'
                = failed_count v + (if is_failure last then 1 else 0)).
    { intros -> <-. exists [], o.
      rewrite observations_S. cbn [List.length map app poll_observations
                                   count_failures]. rewrite <- Ho.
      split; [reflexivity|]. split; [intros []|]. split; [lia|].
      destruct o.
      - destruct Hpost as (_ & Hc & Hs & Hf & _).
        cbn [is_success is_failure]. repeat split; try assumption;
          try lia. left; reflexivity.
      - destruct Hpost as (Hfs & Hs & Hpost).
        destruct (Z.geb_spec (failed_status_count v + 1) max_retries) as [Hn|_].
        + destruct Hpost as (_ & Hc & Hf). cbn [is_success is_failure].
          repeat split; try assumption; try lia.
          right. split; [reflexivity|lia].
        + destruct Hpost as (Hfl & _). discriminate.
      - destruct Hpost as (Hfl & _). discriminate. }
    assert (Hrec : fl <> Break ->
              parse_completed v1 = false /\
              success_count v1 = success_count v /\
              failed_count v1 = failed_count v /\
              o <> ObsSuccess /\
              failed_status_count v1
              = failed_status_count v + (if is_failure o then 1 else 0) /\
              failed_status_count v1 < max_retries).
    { intros Hfl. destruct o.
      - destruct Hpost as (Hfl' & _). congruence.
      - destruct Hpost as (Hfs & Hs & Hpost). cbn [is_failure].
        destruct (Z.geb_spec (failed_status_count v + 1) max_retries) as [_|Hn].
        + destruct Hpost as (Hfl' & _). congruence.
        + destruct Hpost as (_ & Hc & Hf).
          repeat split; try congruence; lia.
      - destruct Hpost as (_ & Hc & Hs & Hf & Hfs). cbn [is_failure].
        repeat split; try congruence; lia. }
    destruct fl; [injection Hres as Hv _ _; exact (Hbreak eq_refl Hv)| |].
    all: destruct (Hrec ltac:(discriminate))
           as (Hc1 & Hs1 & Hf1 & Hos & Hfs1 & Hlt1).
    all: assert (Hrun1 : running max_retries v1 = true)
           by (apply running_spec; split; assumption).
    all: destruct (poll fuel v1 _) as [[r w2] t2] eqn:Hrun.
    all: injection Hres as -> -> _.
    all: destruct (IH _ _ _ _ _ Hrun1 Hrun)
           as (pre & last & Hobs & Hns & Hlt' & Hlast & Hc' & Hr' & Hs' & Hf').
    all: exists (o :: pre), last.
    all: rewrite observations_S; cbn [List.length map app count_failures].
    all: rewrite <- Ho, Hobs.
    all: split; [reflexivity|].
    all: split; [intros [Hin|Hin]; [congruence|exact (Hns Hin)]|].
    all: split; [lia|].
    all: split; [destruct Hlast as [->|[-> Hmax]];
                 [left; reflexivity|right; split; [reflexivity|lia]]|].
    all: repeat split; try assumption; lia.
Qed.


(** C2, as amended.  The polling loop declares a document failed only
    after [max_retries] reported failures in total: when it returns with
    the failure recorded, the observations it made end in a reported
    failure, contain no reported success, and contain exactly [max_retries]
    reported failures, wherever the non-failure observations fall between
    them. *)
Theorem poll_failed_only_after_budget
    (fuel : nat) (v v' : ParseVars) (w w' : W) (tr : list event) :
  poll fuel (fresh v) w = (Some v', w', tr) ->
  failed_count v' = failed_count v + 1 ->
  exists pre,
    map classify (observations (Z.to_nat (retry_count v')) w)
    = pre ++ [ObsFailure] /\
    ~ In ObsSuccess pre /\
    1 <= max_retries /\
    count_failures (pre ++ [ObsFailure]) = max_retries.
Proof.
  intros Hrun Hfailed.
  destruct (running max_retries (fresh v)) eqn:Hrunning.
  - destruct (poll_while_returned fuel _ _ _ _ _ Hrunning Hrun)
      as (pre & last & Hobs & Hns & Hlt & Hlast & Hc & Hr & Hs & Hf).
    cbn [set_poll failed_status_count retry_count success_count failed_count]
      in Hlt, Hlast, Hr, Hs, Hf.
    pose proof (count_failures_nonneg pre) as Hnn.
    destruct Hlast as [->|[-> Hmax]]; [cbn [is_failure] in Hf; lia|].
    exists pre.
    replace (Z.to_nat (retry_count v')) with (S (List.length pre)) by lia.
    rewrite count_failures_app. cbn [count_failures is_failure].
    repeat split; try assumption; lia.
  - rewrite (poll_while_stopped fuel _ _ Hrunning) in Hrun.
    injection Hrun as <- _ _. cbn [set_poll failed_count] in Hfailed. lia.
Qed.


End PollerProperties.

(** ** Properties of the parse stage *)

Section ParseStageProperties.

Context {W : Type} {API : DataSetAPI W}.
Variable dataset : DataSet.
Variables max_retries retry_interval : Z.

Local Abbreviation lifecycle := (doc_lifecycle max_retries retry_interval).

Lemma status_query_event (d : string) (w : W) :
  truthy d = true ->
  list_documents_in_dataset (Some dataset) None 1 100 (Some d) w
  = (match snd (api_list_documents w (by_id d)) with
     | Ok documents => documents
     | Raised => []
     end,
     fst (api_list_documents w (by_id d)),
     [EvList (by_id d) (snd (api_list_documents w (by_id d)))]).
Proof.
  intros Hd. unfold list_documents_in_dataset, bind, call_list_documents.
  cbn [truthy_opt]. rewrite Hd. fold (by_id d).
  destruct (api_list_documents w (by_id d)) as [w1 [documents|]]; reflexivity.
Qed.

Lemma status_query_class (d : string) (w : W) :
  truthy d = true ->
  classify
    (fst (fst (list_documents_in_dataset (Some dataset) None 1 100 (Some d) w)))
  = classify_result (snd (api_list_documents w (by_id d))).
Proof.
  intros Hd. rewrite (status_query_event d w Hd). cbn [fst].
  destruct (snd (api_list_documents w (by_id d))); reflexivity.
Qed.

Lemma count_success_app (t1 t2 : list event) :
  count_success (t1 ++ t2) = count_success t1 + count_success t2.
Proof.
  unfold count_success. rewrite filter_app, length_app. lia.
Qed.

Lemma reported_success_by_id (d : string) (r : result (list Doc)) :
  truthy d = true ->
  reported_success (EvList (by_id d) r) = is_success (classify_result r).
Proof. intros Hd. cbn. rewrite Hd. reflexivity. Qed.

(** The trace of the polling loop of a valid document. *)
Lemma poll_while_trace (d : string) (fuel : nat) :
  truthy d = true ->
  forall (v : ParseVars) (w : W) (r : option ParseVars) (w' : W)
         (tr : list event),
    parse_completed v = false ->
    poll_while fuel (Some dataset) d max_retries retry_interval v w
    = (r, w', tr) ->
    Forall (about_doc d) tr /\
    match r with
    | Some v' =>
        poll_segment max_retries retry_interval d (failed_status_count v) tr /\
        success_count v' = success_count v + count_success tr
    | None => True
    end.
Proof.
  intros Hd. induction fuel as [|fuel IH]; intros v w r w' tr Hpc Hres.
  - cbn [poll_while] in Hres. rewrite Hpc in Hres. cbn [negb] in Hres.
    rewrite andb_true_r in Hres.
    destruct (Z.ltb_spec (failed_status_count v) max_retries);
      injection Hres as <- <- <-; (split; [constructor|]); [exact I|].
    split; [apply ps_budget_spent; assumption|].
    unfold count_success. cbn. lia.
  - destruct (running max_retries v) eqn:Hrun.
    + destruct (poll_while_round (Some dataset) d max_retries retry_interval
                  fuel v w Hrun) as (v1 & fl & Hpost & Heq).
      rewrite Heq in Hres. clear Heq.
      rewrite (status_query_class d w Hd) in Hpost.
      rewrite (status_query_event d w Hd) in Hres. cbn [fst snd] in Hres.
      apply running_spec in Hrun. destruct Hrun as [Hlt _].
      set (q := snd (api_list_documents w (by_id d))) in *.
      destruct Hpost as [_ Hpost].
      cbn [set_poll retry_count failed_status_count parse_completed
           success_count failed_count] in Hpost.
      assert (Hq : about_doc d (EvList (by_id d) q)) by reflexivity.
      destruct (classify_result q) eqn:Hclass.
      * destruct Hpost as (-> & _ & Hs & _). injection Hres as <- <- <-.
        split; [constructor; [exact Hq|constructor]|].
        split; [apply ps_success; assumption|].
        unfold count_success. cbn [filter].
        rewrite (reported_success_by_id d q Hd), Hclass. cbn. lia.
      * destruct Hpost as (Hfs & Hs & Hpost).
        destruct (Z.geb_spec (failed_status_count v + 1) max_retries) as [Hn|Hn].
        -- destruct Hpost as (-> & _). injection Hres as <- <- <-.
           split; [constructor; [exact Hq|constructor]|].
           split; [apply ps_failed; assumption|].
           unfold count_success. cbn [filter].
           rewrite (reported_success_by_id d q Hd), Hclass. cbn. lia.
        -- destruct Hpost as (-> & Hc & _).
           destruct (poll_while fuel _ _ _ _ v1 _) as [[r2 w2] t2] eqn:Hrec.
           injection Hres as <- <- <-.
           assert (Hpc1 : parse_completed v1 = false) by congruence.
           destruct (IH _ _ _ _ _ Hpc1 Hrec) as [Hall Hr2].
           split; [constructor; [exact Hq|constructor; [exact I|exact Hall]]|].
           destruct r2 as [v2|]; [|exact I]. destruct Hr2 as [Hseg Hs2].
           split.
           ++ apply ps_failure_absorbed; [assumption|lia|].
              rewrite <- Hfs. exact Hseg.
           ++ cbn [app]. unfold count_success in *. cbn [filter].
              rewrite (reported_success_by_id d q Hd), Hclass. cbn [is_success].
              cbn [reported_success filter]. lia.
      * destruct Hpost as (-> & Hc & Hs & _ & Hfs).
        destruct (poll_while fuel _ _ _ _ v1 _) as [[r2 w2] t2] eqn:Hrec.
        injection Hres as <- <- <-.
        assert (Hpc1 : parse_completed v1 = false) by congruence.
           destruct (IH _ _ _ _ _ Hpc1 Hrec) as [Hall Hr2].
        split; [constructor; [exact Hq|constructor; [exact I|exact Hall]]|].
        destruct r2 as [v2|]; [|exact I]. destruct Hr2 as [Hseg Hs2].
        split.
        -- apply ps_waiting; [assumption|assumption|].
           rewrite <- Hfs. exact Hseg.
        -- cbn [app]. unfold count_success in *. cbn [filter].
           rewrite (reported_success_by_id d q Hd), Hclass. cbn [is_success].
           cbn [reported_success filter]. lia.
    + rewrite (poll_while_stopped (Some dataset) d max_retries retry_interval
                 (S fuel) v w Hrun) in Hres.
      injection Hres as <- <- <-.
      split; [constructor|]. split; [|unfold count_success; cbn; lia].
      apply ps_budget_spent. unfold running in Hrun. rewrite Hpc in Hrun.
      cbn [negb] in Hrun. rewrite andb_true_r in Hrun.
      apply Z.ltb_ge in Hrun. exact Hrun.
Qed.

Lemma parse_one_trace (fuel : nat) (v : ParseVars) (d : string) (w : W)
    (r : option ParseVars) (w' : W) (tr : list event) :
  truthy d = true ->
  parse_one fuel (Some dataset) max_retries retry_interval v d w = (r, w', tr) ->
  Forall (about_doc d) tr /\
  match r with
  | Some v' =>
      lifecycle d tr /\ success_count v' = success_count v + count_success tr
  | None => True
  end.
Proof.
  intros Hd Hres.
  unfold parse_one, bind, sleep, call_async_parse_documents in Hres.
  destruct (api_async_parse_documents (api_sleep w 1) [d]) as [w1 [u|]].
  - destruct (poll_while fuel _ _ _ _ _ w1) as [[ov w2] t2] eqn:Hpoll.
    destruct (poll_while_trace d fuel Hd (set_poll v 0 0 false None)
                _ _ _ _ eq_refl Hpoll) as [Hall Hov].
    assert (Hshape : tr = EvSleep 1 :: EvAsyncParse [d] (Ok u) :: t2 /\
                     r = match ov with
                         | Some v2 =>
                             if negb (parse_completed v2)
                             then Some (add_failed v2) else Some v2
                         | None => None
                         end).
    { destruct ov as [v2|]; [destruct (negb (parse_completed v2))|];
        cbn in Hres; rewrite ?app_nil_r in Hres;
        injection Hres as <- _ <-; split; reflexivity. }
    destruct Hshape as [-> ->].
    split; [constructor; [exact I|constructor; [reflexivity|exact Hall]]|].
    destruct ov as [v2|]; [|exact I].
    destruct Hov as [Hseg Hs].
    cbn [set_poll failed_status_count success_count] in Hseg, Hs.
    assert (Hcount : count_success (EvSleep 1 :: EvAsyncParse [d] (Ok u) :: t2)
                     = count_success t2) by reflexivity.
    destruct (negb (parse_completed v2)); (split; [apply lc_polled; exact Hseg|]);
      rewrite Hcount; cbn [add_failed success_count]; exact Hs.
  - cbn in Hres. injection Hres as <- _ <-.
    split; [constructor; [exact I|constructor; [reflexivity|constructor]]|].
    split; [apply lc_trigger_failed|].
    unfold count_success. cbn. lia.
Qed.

Lemma parse_for_trace (fuel : nat) (ids : list string) :
  Forall (fun d => truthy d = true) ids ->
  forall (v : ParseVars) (w : W) (r : option ParseVars) (w' : W)
         (tr : list event),
    parse_for fuel (Some dataset) max_retries retry_interval v ids w
    = (r, w', tr) ->
    Forall (fun e => exists d, In d ids /\ about_doc d e) tr /\
    match r with
    | Some v' =>
        parse_trace_complete max_retries retry_interval ids tr /\
        success_count v' = success_count v + count_success tr
    | None => parse_trace_partial max_retries retry_interval ids tr
    end.
Proof.
  induction 1 as [|d ids Hd Hids IH]; intros v w r w' tr Hres.
  - cbn in Hres. injection Hres as <- _ <-.
    split; [constructor|]. split.
    + exists []. split; [reflexivity|constructor].
    + unfold count_success. cbn. lia.
  - cbn [parse_for] in Hres. unfold bind in Hres.
    destruct (parse_one fuel _ _ _ v d w) as [[ov w1] t1] eqn:Hone.
    destruct (parse_one_trace _ _ _ _ _ _ _ Hd Hone) as [Hall1 Hov].
    assert (Hall1' : Forall (fun e => exists d0, In d0 (d :: ids) /\
                                                about_doc d0 e) t1).
    { eapply Forall_impl; [|exact Hall1]. intros e He.
      exists d. split; [left; reflexivity|exact He]. }
    destruct ov as [v1|].
    + destruct (parse_for fuel _ _ _ v1 ids w1) as [[r2 w2] t2] eqn:Hrest.
      injection Hres as <- _ <-.
      destruct Hov as [Hlife Hs1].
      destruct (IH _ _ _ _ _ Hrest) as [Hall2 Hr2].
      split.
      * apply Forall_app. split; [exact Hall1'|].
        eapply Forall_impl; [|exact Hall2]. intros e (d0 & Hin & He).
        exists d0. split; [right; exact Hin|exact He].
      * destruct r2 as [v2|].
        -- destruct Hr2 as [(segs & -> & Hsegs) Hs2]. split.
           ++ exists (t1 :: segs). split; [reflexivity|].
              constructor; assumption.
           ++ rewrite count_success_app. lia.
        -- destruct Hr2 as (done & d' & todo & segs & rest & -> & -> & Hsegs & Hrest').
           exists (d :: done), d', todo, (t1 :: segs), rest.
           split; [reflexivity|]. split; [cbn; rewrite app_assoc; reflexivity|].
           split; [constructor; assumption|exact Hrest'].
    + cbn in Hres. injection Hres as <- _ <-. rewrite app_nil_r.
      split; [exact Hall1'|].
      exists [], d, ids, [], t1.
      split; [reflexivity|]. split; [reflexivity|].
      split; [constructor|exact Hall1].
Qed.

Lemma parse_documents_in_dataset_unfold (fuel : nat) (ids : list string) (w : W) :
  parse_documents_in_dataset fuel (Some dataset) ids max_retries
    retry_interval w
  = match filter truthy ids with
    | [] => (Some false, w, [])
    | _ =>
        let '(ov, w', tr) :=
          parse_for fuel (Some dataset) max_retries retry_interval
            parse_vars0 (filter truthy ids) w in
        (match ov with
         | Some v => Some (0 <? success_count v)
         | None => None
         end, w', tr)
    end.
Proof.
  unfold parse_documents_in_dataset.
  destruct ids as [|i ids]; [reflexivity|].
  destruct (filter truthy (i :: ids)) as [|j js]; [reflexivity|].
  unfold bind.
  destruct (parse_for fuel _ _ _ _ (j :: js) w) as [[[v|] w'] tr];
    cbn; rewrite app_nil_r; reflexivity.
Qed.

Lemma filter_truthy_all (ids : list string) :
  Forall (fun d => truthy d = true) (filter truthy ids).
Proof.
  apply Forall_forall. intros d Hin. apply filter_In in Hin. tauto.
Qed.

Lemma parse_documents_in_dataset_trace
    (fuel : nat) (ids : list string) (w : W)
    (r : option bool) (w' : W) (tr : list event) :
  parse_documents_in_dataset fuel (Some dataset) ids max_retries
    retry_interval w = (r, w', tr) ->
  Forall (fun e => exists d, In d (filter truthy ids) /\ about_doc d e) tr /\
  match r with
  | Some _ =>
      parse_trace_complete max_retries retry_interval (filter truthy ids) tr
  | None =>
      parse_trace_partial max_retries retry_interval (filter truthy ids) tr
  end.
Proof.
  rewrite parse_documents_in_dataset_unfold. intros Hres.
  destruct (filter truthy ids) as [|j js] eqn:Hfilter.
  - injection Hres as <- _ <-. split; [constructor|].
    exists []. split; [reflexivity|constructor].
  - destruct (parse_for fuel _ _ _ _ (j :: js) w) as [[ov w2] t2] eqn:Hfor.
    injection Hres as <- _ <-.
    assert (Hvalid : Forall (fun d => truthy d = true) (j :: js))
      by (rewrite <- Hfilter; apply filter_truthy_all).
    destruct (parse_for_trace fuel _ Hvalid _ _ _ _ _ Hfor) as [Hall Hov].
    split; [exact Hall|].
    destruct ov as [v|]; [exact (proj1 Hov)|exact Hov].
Qed.

(** C4.  In the parse stage the documents are handled strictly one after
    the other: the calls of a finished run are the complete lifecycles of
    the valid ids, in batch order, each made of the grace period, the
    trigger for that document and, unless the trigger failed, its status
    queries up to a terminal state (reported success, failure budget used
    up, or no polling at all); while the stage is still running, the calls
    are the complete lifecycles of a prefix of the batch followed by calls
    about the next document only.  So the trigger for document k+1 comes
    after the whole lifecycle of document k. *)
Theorem parse_stage_one_document_at_a_time
    (fuel : nat) (ids : list string) (w : W)
    (r : option bool) (w' : W) (tr : list event) :
  parse_documents_in_dataset fuel (Some dataset) ids max_retries
    retry_interval w = (r, w', tr) ->
  match r with
  | Some _ =>
      parse_trace_complete max_retries retry_interval (filter truthy ids) tr
  | None =>
      parse_trace_partial max_retries retry_interval (filter truthy ids) tr
  end.
Proof.
  intros Hres. exact (proj2 (parse_documents_in_dataset_trace _ _ _ _ _ _ Hres)).
Qed.

End ParseStageProperties.

(** ** The result of the parse stage *)

Lemma count_success_positive (tr : list event) :
  0 < count_success tr <-> exists e, In e tr /\ reported_success e = true.
Proof.
  unfold count_success. split.
  - intros Hpos. destruct (filter reported_success tr) as [|e l] eqn:Hf.
    + cbn in Hpos. lia.
    + exists e. apply filter_In. rewrite Hf. left. reflexivity.
  - intros (e & Hin & He).
    assert (Hin' : In e (filter reported_success tr))
      by (apply filter_In; split; assumption).
    destruct (filter reported_success tr); [destruct Hin'|].
    cbn [List.length]. lia.
Qed.

Lemma by_id_inj (d d' : string) : by_id d = by_id d' -> d = d'.
Proof. unfold by_id. intros H. injection H as ->. reflexivity. Qed.

Lemma is_success_true (o : obs) : is_success o = true <-> o = ObsSuccess.
Proof. destruct o; cbn; split; congruence. Qed.


(** ** A failure budget that is not positive *)

Section NoBudget.

Context {W : Type} {API : DataSetAPI W}.
Variable dataset_object : option DataSet.
Variables max_retries retry_interval : Z.
Hypothesis no_budget : max_retries <= 0.

Lemma parse_one_no_budget (fuel : nat) (v : ParseVars) (d : string) (w : W) :
  parse_one fuel dataset_object max_retries retry_interval v d w
  = (Some (add_failed
             match snd (api_async_parse_documents (api_sleep w 1) [d]) with
             | Ok _ => set_poll v 0 0 false None
             | Raised => v
             end),
     fst (api_async_parse_documents (api_sleep w 1) [d]),
     [EvSleep 1;
      EvAsyncParse [d] (snd (api_async_parse_documents (api_sleep w 1) [d]))]).
Proof.
  unfold parse_one, bind, sleep, call_async_parse_documents.
  destruct (api_async_parse_documents (api_sleep w 1) [d]) as [w1 [u|]];
    cbn [fst snd]; [|reflexivity].
  rewrite poll_while_stopped; [reflexivity|].
  unfold running. cbn [set_poll failed_status_count].
  apply andb_false_intro1. apply Z.ltb_ge. lia.
Qed.

Lemma parse_for_no_budget (fuel : nat) (ids : list string) :
  forall (v : ParseVars) (w : W),
  exists v' w' tr,
    parse_for fuel dataset_object max_retries retry_interval v ids w
    = (Some v', w', tr) /\
    success_count v' = success_count v /\
    failed_count v' = failed_count v + Z.of_nat (List.length ids) /\
    existsb is_status_query tr = false.
Proof.
  induction ids as [|d ids IH]; intros v w.
  - exists v, w, []. cbn. repeat split; lia.
  - cbn [parse_for]. unfold bind. rewrite parse_one_no_budget.
    match goal with
    | |- context [parse_for _ _ _ _ ?v1 ids ?w1] =>
        destruct (IH v1 w1) as (v' & w' & tr & -> & Hs & Hf & Hq)
    end.
    eexists _, _, _. split; [reflexivity|].
    split; [|split].
    + rewrite Hs. destruct (snd (api_async_parse_documents _ _)); reflexivity.
    + rewrite Hf. cbn [List.length].
      destruct (snd (api_async_parse_documents _ _));
        cbn [add_failed set_poll failed_count]; lia.
    + cbn. exact Hq.
Qed.

End NoBudget.

(** C10.  With [max_retries <= 0] the polling loop body never runs: a
    document whose trigger succeeds is left after the grace period and the
    trigger, without any status query, and is counted as failed; and
    [parse_documents_in_dataset] returns false for every batch and every
    fuel, so no document is ever declared parsed. *)
Theorem no_budget_no_success
    (W : Type) (API : DataSetAPI W) (fuel : nat)
    (dataset_object : option DataSet) (ids : list string)
    (max_retries retry_interval : Z) (w : W) :
  max_retries <= 0 ->
  (forall (v : ParseVars) (d : string) (u : unit) (w0 w1 : W),
      api_async_parse_documents (api_sleep w0 1) [d] = (w1, Ok u) ->
      exists v',
        parse_one fuel dataset_object max_retries retry_interval v d w0
        = (Some v', w1, [EvSleep 1; EvAsyncParse [d] (Ok u)]) /\
        retry_count v' = 0 /\
        failed_count v' = failed_count v + 1 /\
        success_count v' = success_count v) /\
  exists w' tr,
    parse_documents_in_dataset fuel dataset_object ids max_retries
      retry_interval w = (Some false, w', tr) /\
    existsb is_status_query tr = false.
Proof.
  intros Hn. split.
  - intros v d u w0 w1 Htrigger.
    rewrite (parse_one_no_budget dataset_object max_retries retry_interval Hn).
    rewrite Htrigger. cbn [fst snd].
    eexists. split; [reflexivity|]. cbn. repeat split; reflexivity.
  - destruct dataset_object as [dataset|];
      [|exists w, []; split; reflexivity].
    rewrite parse_documents_in_dataset_unfold.
    destruct (filter truthy ids) as [|j js];
      [exists w, []; split; reflexivity|].
    destruct (parse_for_no_budget (Some dataset) max_retries retry_interval Hn
                fuel (j :: js) parse_vars0 w)
      as (v' & w' & tr & -> & Hs & _ & Hq).
    exists w', tr. rewrite Hs. cbn [parse_vars0 success_count].
    split; [reflexivity|exact Hq].
Qed.

(** ** Properties of the folder walk *)

Section IngestProperties.

Context {W : Type} {API : DataSetAPI W}.
Variable dataset_object : option DataSet.
Variable allowed_extensions : list string.
Variable duplicate_handling : string.

Local Abbreviation quiet tr := (Forall (fun e => parse_stage_event e = false) tr).

Lemma keyword_lookup_events (keywords : option string) (page page_size : Z)
    (w : W) :
  quiet (snd (list_documents_in_dataset dataset_object keywords page
                page_size None w)).
Proof.
  unfold list_documents_in_dataset, bind, call_list_documents.
  destruct dataset_object; [|constructor].
  cbn [truthy_opt].
  destruct (truthy_opt keywords);
    destruct (api_list_documents w _) as [w1 [documents|]];
    cbn; repeat constructor.
Qed.

Lemma upload_document_events (f : DirEntry) (w : W) :
  quiet (snd (upload_document_to_dataset dataset_object f w)).
Proof.
  unfold upload_document_to_dataset, bind, call_upload_documents,
    call_list_documents.
  destruct dataset_object; [|constructor].
  destruct (negb (de_exists f)); [constructor|].
  destruct (de_blob f) as [blob|]; [|constructor].
  destruct (api_upload_documents w _ _) as [w1 [u|]];
    [|cbn; repeat constructor].
  destruct (api_list_documents w1 _) as [w2 [[|d0 rest]|]];
    [cbn; repeat constructor| |cbn; repeat constructor].
  destruct (find_doc_id (de_name f) (d0 :: rest)) as [i|];
    [destruct (truthy i); [|destruct (hasattr d0 doc_id);
                             [destruct (getattr d0 doc_id)|]]|];
    cbn; repeat constructor.
Qed.

Lemma delete_existing_events (existing : list Doc) (w : W) :
  quiet (snd (delete_existing existing w)).
Proof.
  unfold delete_existing, bind, call_delete.
  destruct existing as [|d0 rest]; [constructor|].
  destruct (truthy_opt (deletable_id d0)); [|constructor].
  destruct (deletable_id d0) as [i|]; [|constructor].
  destruct (api_delete w i) as [w1 r]. cbn. repeat constructor.
Qed.

Lemma duplicate_check_effect (filename : string) (v : IngestVars) (w : W) :
  quiet (snd (duplicate_check dataset_object duplicate_handling filename v w))
  /\ uploaded_doc_ids
       (fst (fst (fst (duplicate_check dataset_object duplicate_handling
                         filename v w))))
     = uploaded_doc_ids v.
Proof.
  unfold duplicate_check.
  destruct (negb (String.eqb duplicate_handling "allow"));
    [|split; [constructor|reflexivity]].
  unfold bind.
  pose proof (keyword_lookup_events (Some filename) 1 100 w) as Hq.
  destruct (list_documents_in_dataset _ _ _ _ _ w) as [[existing w1] t1].
  cbn [snd] in Hq.
  destruct (_ && str_in _ _).
  - cbn. rewrite app_nil_r. split; [exact Hq|reflexivity].
  - destruct (_ && String.eqb _ _).
    + pose proof (delete_existing_events existing w1) as Hd.
      destruct (delete_existing existing w1) as [[u w2] t2].
      cbn [snd] in Hd. cbn. rewrite app_nil_r.
      split; [apply Forall_app; split; assumption|reflexivity].
    + cbn. rewrite app_nil_r. split; [exact Hq|reflexivity].
Qed.

(** The body of the folder loop on an eligible file. *)
Lemma ingest_file_eligible (v : IngestVars) (f : DirEntry) (w : W) :
  endswith_any (lower (de_name f)) allowed_extensions = true ->
  de_isfile f = true ->
  ingest_file dataset_object allowed_extensions duplicate_handling v f w
  = let '(v1, fl, w1, t1) :=
      duplicate_check dataset_object duplicate_handling (de_name f)
        (add_processed v) w in
    match fl with
    | Continue => (v1, w1, t1)
    | _ =>
        let '(success, i, w2, t2) :=
          upload_document_to_dataset dataset_object f w1 in
        (if success then
           if truthy i then append_doc_id v1 i else v1
         else add_upload_failed v1, w2, t1 ++ t2)
    end.
Proof.
  intros Hext Hfile. unfold ingest_file. rewrite Hext, Hfile. unfold bind.
  destruct (duplicate_check _ _ _ _ w) as [[[v1 fl] w1] t1].
  destruct fl.
  - destruct (upload_document_to_dataset _ f w1) as [[[success i] w2] t2].
    destruct success; [destruct (truthy i)|]; cbn; rewrite app_nil_r;
      reflexivity.
  - cbn. rewrite app_nil_r. reflexivity.
  - destruct (upload_document_to_dataset _ f w1) as [[[success i] w2] t2].
    destruct success; [destruct (truthy i)|]; cbn; rewrite app_nil_r;
      reflexivity.
Qed.

Lemma ingest_file_effect (v : IngestVars) (f : DirEntry) (w : W) :
  quiet (snd (ingest_file dataset_object allowed_extensions
                duplicate_handling v f w)) /\
  exists extra,
    uploaded_doc_ids
      (fst (fst (ingest_file dataset_object allowed_extensions
                   duplicate_handling v f w)))
    = uploaded_doc_ids v ++ extra /\
    Forall (fun i => truthy i = true) extra.
Proof.
  destruct (endswith_any (lower (de_name f)) allowed_extensions) eqn:Hext;
    [destruct (de_isfile f) eqn:Hfile|].
  - rewrite (ingest_file_eligible v f w Hext Hfile).
    destruct (duplicate_check_effect (de_name f) (add_processed v) w)
      as [Hq Hids].
    destruct (duplicate_check _ _ _ _ w) as [[[v1 fl] w1] t1].
    cbn [fst snd] in Hq, Hids. cbn [add_processed uploaded_doc_ids] in Hids.
    pose proof (upload_document_events f w1) as Hu.
    destruct (upload_document_to_dataset _ f w1) as [[[success i] w2] t2].
    cbn [snd] in Hu.
    assert (Hstay : exists extra,
               uploaded_doc_ids v1 = uploaded_doc_ids v ++ extra /\
               Forall (fun i => truthy i = true) extra).
    { exists []. rewrite app_nil_r. split; [exact Hids|constructor]. }
    assert (Hboth : quiet (t1 ++ t2)) by (apply Forall_app; split; assumption).
    destruct fl; cbn [fst snd]; (split; [assumption|]); try exact Hstay.
    all: destruct success; [destruct (truthy i) eqn:Hi|]; try exact Hstay.
    all: exists [i]; cbn [append_doc_id uploaded_doc_ids]; rewrite Hids.
    all: split; [reflexivity|constructor; [exact Hi|constructor]].
  - unfold ingest_file. rewrite Hext, Hfile. cbn.
    split; [constructor|]. exists []. rewrite app_nil_r.
    split; [reflexivity|constructor].
  - unfold ingest_file. rewrite Hext. cbn.
    split; [constructor|]. exists []. rewrite app_nil_r.
    split; [reflexivity|constructor].
Qed.

Lemma upload_folder_loop_effect (entries : list DirEntry) :
  forall (v : IngestVars) (w : W),
    quiet (snd (upload_folder_loop dataset_object allowed_extensions
                  duplicate_handling v entries w)) /\
    (Forall (fun i => truthy i = true) (uploaded_doc_ids v) ->
     Forall (fun i => truthy i = true)
       (uploaded_doc_ids
          (fst (fst (upload_folder_loop dataset_object allowed_extensions
                       duplicate_handling v entries w))))).
Proof.
  induction entries as [|f entries IH]; intros v w.
  - cbn. split; [constructor|tauto].
  - cbn [upload_folder_loop]. unfold bind.
    destruct (ingest_file_effect v f w) as [Hq (extra & Hids & Hextra)].
    destruct (ingest_file _ _ _ v f w) as [[v1 w1] t1].
    cbn [fst snd] in Hq, Hids.
    destruct (IH v1 w1) as [Hq' Hids'].
    destruct (upload_folder_loop _ _ _ v1 entries w1) as [[v2 w2] t2].
    cbn [fst snd] in *. split.
    + apply Forall_app. split; assumption.
    + intros Hv. apply Hids'. rewrite Hids. apply Forall_app.
      split; assumption.
Qed.

End IngestProperties.

(** ** Properties of the whole pipeline *)

Section PipelineProperties.

Context {W : Type} {API : DataSetAPI W}.

Lemma filter_all_true {A} (f : A -> bool) (l : list A) :
  Forall (fun a => f a = true) l -> filter f l = l.
Proof.
  induction 1 as [|a l Ha Hl IH]; [reflexivity|].
  cbn. rewrite Ha, IH. reflexivity.
Qed.

Lemma upload_documents_unfold (fuel : nat) (dataset : DataSet)
    (entries : list DirEntry) (allowed_extensions : list string)
    (config : option Config) (w : W) :
  upload_documents fuel (Some dataset) (Some entries) allowed_extensions
    config w
  = let '(v, w1, t1) :=
      upload_folder_loop (Some dataset) allowed_extensions
        (config_policy config) ingest_vars0 entries w in
    match uploaded_doc_ids v with
    | [] => (Some [], w1, t1)
    | _ =>
        let '(r, w2, t2) :=
          parse_documents_in_dataset fuel (Some dataset) (uploaded_doc_ids v)
            (config_max_retries config) (config_retry_interval config) w1 in
        (match r with
         | Some _ => Some (uploaded_doc_ids v)
         | None => None
         end, w2, t1 ++ t2)
    end.
Proof.
  unfold upload_documents, bind.
  fold (config_policy config) (config_max_retries config)
    (config_retry_interval config).
  destruct (upload_folder_loop _ _ _ _ entries w) as [[v w1] t1].
  destruct (uploaded_doc_ids v) as [|i ids] eqn:Hids.
  - cbn. rewrite app_nil_r. reflexivity.
  - destruct (parse_documents_in_dataset _ _ _ _ _ w1) as [[[b|] w2] t2];
      cbn; rewrite app_nil_r; reflexivity.
Qed.

(** The calls of [upload_documents]: the folder walk, then the parse
    stage over the accepted ids. *)
Lemma upload_documents_trace (fuel : nat) (dataset : DataSet)
    (entries : list DirEntry) (allowed_extensions : list string)
    (config : option Config) (w : W)
    (r : option (list string)) (w' : W) (tr : list event) :
  upload_documents fuel (Some dataset) (Some entries) allowed_extensions
    config w = (r, w', tr) ->
  exists v w1 t_walk t_parse,
    upload_folder_loop (Some dataset) allowed_extensions
      (config_policy config) ingest_vars0 entries w = (v, w1, t_walk) /\
    tr = t_walk ++ t_parse /\
    Forall (fun i => truthy i = true) (uploaded_doc_ids v) /\
    Forall (fun e => parse_stage_event e = false) t_walk /\
    Forall (fun e => exists d, In d (uploaded_doc_ids v) /\ about_doc d e)
      t_parse /\
    match r with
    | Some ids =>
        ids = uploaded_doc_ids v /\
        parse_trace_complete (config_max_retries config)
          (config_retry_interval config) ids t_parse
    | None =>
        parse_trace_partial (config_max_retries config)
          (config_retry_interval config) (uploaded_doc_ids v) t_parse
    end.
Proof.
  rewrite upload_documents_unfold. intros Hres.
  destruct (upload_folder_loop_effect (Some dataset) allowed_extensions
              (config_policy config) entries ingest_vars0 w) as [Hq Hids].
  destruct (upload_folder_loop _ _ _ _ entries w) as [[v w1] t1].
  cbn [fst snd] in Hq, Hids. specialize (Hids (Forall_nil _)).
  exists v, w1, t1.
  destruct (uploaded_doc_ids v) as [|i ids] eqn:Hv.
  - injection Hres as <- _ <-. exists []. rewrite app_nil_r.
    split; [reflexivity|]. split; [reflexivity|]. split; [constructor|].
    split; [exact Hq|]. split; [constructor|].
    split; [reflexivity|]. exists []. split; [reflexivity|constructor].
  - destruct (parse_documents_in_dataset _ _ _ _ _ w1) as [[b w2] t2] eqn:Hp.
    injection Hres as <- _ <-. exists t2.
    destruct (parse_documents_in_dataset_trace _ _ _ _ _ _ _ _ _ Hp)
      as [Hall Hb].
    rewrite (filter_all_true truthy _ Hids) in Hall, Hb.
    split; [reflexivity|]. split; [reflexivity|]. split; [exact Hids|].
    split; [exact Hq|]. split; [exact Hall|].
    destruct b as [b|]; [split; [reflexivity|exact Hb]|exact Hb].
Qed.

Lemma about_doc_parse_stage (d : string) (e : event) :
  truthy d = true -> about_doc d e -> parse_stage_event e = true.
Proof.
  intros Hd He. destruct e as [a r| | | |]; cbn in *;
    try reflexivity; try contradiction.
  subst a. cbn. exact Hd.
Qed.

(** C3, as amended.  [upload_documents] first completes the whole folder
    walk (the duplicate checks, deletions and uploads of every file of the
    folder) and only then handles the accepted documents: its calls are the
    calls of the folder walk, none of which is a trigger, a status query or
    a wait, followed by calls of the parse stage only, which are the
    complete lifecycles (grace period, trigger, polling to a terminal
    state) of the accepted ids, one document after the other, in the order
    of acceptance. *)
Theorem uploads_then_sequential_parse (fuel : nat) (dataset : DataSet)
    (entries : list DirEntry) (allowed_extensions : list string)
    (config : option Config) (w : W)
    (r : option (list string)) (w' : W) (tr : list event) :
  upload_documents fuel (Some dataset) (Some entries) allowed_extensions
    config w = (r, w', tr) ->
  exists v w1 t_walk t_parse,
    upload_folder_loop (Some dataset) allowed_extensions
      (config_policy config) ingest_vars0 entries w = (v, w1, t_walk) /\
    tr = t_walk ++ t_parse /\
    Forall (fun e => parse_stage_event e = false) t_walk /\
    Forall (fun e => parse_stage_event e = true) t_parse /\
    match r with
    | Some ids =>
        ids = uploaded_doc_ids v /\
        parse_trace_complete (config_max_retries config)
          (config_retry_interval config) ids t_parse
    | None =>
        parse_trace_partial (config_max_retries config)
          (config_retry_interval config) (uploaded_doc_ids v) t_parse
    end.
Proof.
  intros Hres.
  destruct (upload_documents_trace _ _ _ _ _ _ _ _ _ Hres)
    as (v & w1 & t_walk & t_parse & Hwalk & Htr & Hids & Hq & Hall & Hr).
  exists v, w1, t_walk, t_parse.
  repeat (split; [assumption|]). split; [|exact Hr].
  eapply Forall_impl; [|exact Hall]. intros e (d & Hin & He).
  rewrite Forall_forall in Hids.
  exact (about_doc_parse_stage d e (Hids d Hin) He).
Qed.

(** C7.  When the folder walk accepts no document id, [upload_documents]
    returns the empty list, for every fuel, and none of its calls is a
    trigger, a status query or a wait; and [parse_documents_in_dataset],
    called with a list that holds no valid id, returns false without any
    call to the store. *)
Theorem empty_batch_skips_parse_stage (fuel : nat)
    (dataset_object : option DataSet) (folder : option (list DirEntry))
    (allowed_extensions : list string) (config : option Config) (w : W)
    (ids : list string) (max_retries retry_interval : Z) :
  accepted_ids dataset_object folder allowed_extensions config w = [] ->
  filter truthy ids = [] ->
  (exists w' tr,
      upload_documents fuel dataset_object folder allowed_extensions config w
      = (Some [], w', tr) /\
      Forall (fun e => parse_stage_event e = false) tr) /\
  parse_documents_in_dataset fuel dataset_object ids max_retries
    retry_interval w = (Some false, w, []).
Proof.
  intros Hnone Hinvalid. split.
  - destruct dataset_object as [dataset|];
      [destruct folder as [entries|]|];
      try (exists w, []; split; [reflexivity|constructor]).
    rewrite upload_documents_unfold. cbn [accepted_ids] in Hnone.
    pose proof (upload_folder_loop_effect (Some dataset) allowed_extensions
                  (config_policy config) entries ingest_vars0 w) as [Hq _].
    destruct (upload_folder_loop _ _ _ _ entries w) as [[v w1] t1].
    cbn [fst snd] in *. rewrite Hnone.
    exists w1, t1. split; [reflexivity|exact Hq].
  - destruct dataset_object as [ds|]; [|reflexivity].
    rewrite parse_documents_in_dataset_unfold, Hinvalid. reflexivity.
Qed.

End PipelineProperties.

(** ** The duplicate check and the counts *)

Section DuplicateProperties.

Context {W : Type} {API : DataSetAPI W}.
Variable dataset_object : option DataSet.
Variable allowed_extensions : list string.

Lemma lookup_makes_no_upload (keywords : option string) (page page_size : Z)
    (id : option string) (w : W) :
  existsb is_upload
    (snd (list_documents_in_dataset dataset_object keywords page page_size
            id w)) = false.
Proof.
  unfold list_documents_in_dataset, bind, call_list_documents.
  destruct dataset_object; [|reflexivity].
  destruct (truthy_opt id); [|destruct (truthy_opt keywords)];
    destruct (api_list_documents w _) as [w1 [documents|]]; reflexivity.
Qed.

(** What the duplicate check does to the variables and the control flow. *)
Lemma duplicate_check_vars (duplicate_handling filename : string)
    (v : IngestVars) (w : W) :
  let '(v1, fl, _, _) :=
    duplicate_check dataset_object duplicate_handling filename v w in
  (fl = Continue /\ v1 = add_skipped v) \/
  (fl = Fallthrough /\ (v1 = add_replaced v \/ v1 = v)).
Proof.
  unfold duplicate_check.
  destruct (negb (String.eqb duplicate_handling "allow"));
    [|cbn; right; split; [reflexivity|right; reflexivity]].
  unfold bind.
  destruct (list_documents_in_dataset _ _ _ _ _ w) as [[existing w1] t1].
  destruct (_ && str_in _ _).
  - cbn. left. split; reflexivity.
  - destruct (_ && String.eqb _ _).
    + destruct (delete_existing existing w1) as [[u w2] t2]. cbn.
      right. split; [reflexivity|left; reflexivity].
    + cbn. right. split; [reflexivity|right; reflexivity].
Qed.


(** C9, as amended.  A file whose upload succeeds with an empty identifier
    is counted as processed, and neither as failed nor as skipped, but it
    is not counted as uploaded: the uploaded count of the summary is the
    number of accepted ids, and the file leaves the list of accepted ids
    unchanged.  The empty identifier is thus never in the list that
    [upload_documents] returns, and no trigger is issued for it. *)
Theorem empty_id_not_counted_as_uploaded
    (duplicate_handling : string) (v : IngestVars) (f : DirEntry) (w : W)
    (v1 : IngestVars) (fl : flow) (w1 : W) (t1 : list event)
    (w2 : W) (t2 : list event) :
  endswith_any (lower (de_name f)) allowed_extensions = true ->
  de_isfile f = true ->
  duplicate_check dataset_object duplicate_handling (de_name f)
    (add_processed v) w = (v1, fl, w1, t1) ->
  fl <> Continue ->
  upload_document_to_dataset dataset_object f w1 = (true, "", w2, t2) ->
  (exists v',
      ingest_file dataset_object allowed_extensions duplicate_handling v f w
      = (v', w2, t1 ++ t2) /\
      uploaded_doc_ids v' = uploaded_doc_ids v /\
      processed_count v' = processed_count v + 1 /\
      upload_failed_count v' = upload_failed_count v /\
      skipped_count v' = skipped_count v) /\
  (forall fuel folder config w0 r w' tr,
      upload_documents fuel dataset_object folder allowed_extensions config w0
      = (r, w', tr) ->
      Forall triggers_valid_id tr /\
      forall ids, r = Some ids -> ~ In "" ids).
Proof.
  intros Hext Hfile Hcheck Hfl Hupload. split.
  - exists v1.
    rewrite (ingest_file_eligible _ _ _ v f w Hext Hfile), Hcheck, Hupload.
    pose proof (duplicate_check_vars duplicate_handling (de_name f)
                  (add_processed v) w) as Hvars.
    rewrite Hcheck in Hvars.
    destruct Hvars as [[-> _]|[-> [-> | ->]]]; [congruence| |];
      cbn; repeat split; reflexivity.
  - intros fuel folder config w0 r w' tr Hrun.
    destruct dataset_object as [dataset|];
      [destruct folder as [entries|]|].
    + destruct (upload_documents_trace _ _ _ _ _ _ _ _ _ Hrun)
        as (v0 & w3 & t_walk & t_parse & _ & -> & Hids & Hq & Hall & Hr).
      rewrite Forall_forall in Hids.
      assert (Hvalid : ~ In "" (uploaded_doc_ids v0)).
      { intros Hin. specialize (Hids _ Hin). discriminate. }
      split.
      * apply Forall_app. split.
        -- eapply Forall_impl; [|exact Hq]. intros e He.
           destruct e; try exact I. discriminate.
        -- eapply Forall_impl; [|exact Hall]. intros e (d & Hin & He).
           destruct e as [| | |ids res|]; try exact I. cbn in He. subst ids.
           intros [Hd|[]]. subst d. exact (Hvalid Hin).
      * intros ids ->. destruct Hr as [-> _]. exact Hvalid.
    + cbn in Hrun. injection Hrun as <- _ <-.
      split; [constructor|]. intros ids Hids. injection Hids as <-.
      intros [].
    + cbn in Hrun. injection Hrun as <- _ <-.
      split; [constructor|]. intros ids Hids. injection Hids as <-.
      intros [].
Qed.

End DuplicateProperties.

(** ** The scenarios, checked *)


(** C2, counterexample.  With budget two and the answers failed, running,
    failed, the loop declares the document failed at the third query,
    although the observations end in a single reported failure: the running
    observation between the two failures did not reset the count. *)
Lemma consecutive_failures_not_required :
  ~ failed_only_after_consecutive the_dataset "d1" 2 5 flaky_store.
Proof.
  intros H.
  specialize (H 3%nat parse_vars0 (mkParseVars 0 1 3 2 true (Some "failed"))
                (mkStub [] [] [] [] [])
                (snd (poll_while 3 the_dataset "d1" 2 5
                        (set_poll parse_vars0 0 0 false None) flaky_store))
                eq_refl eq_refl).
  vm_compute in H. apply H. reflexivity.
Qed.

(** The same run, read backwards: the three observations hold two failures. *)
Lemma poll_failed_only_after_budget_witness :
  exists pre,
    map classify (poll_observations (Z.to_nat 3) the_dataset "d1" 5 flaky_store)
    = pre ++ [ObsFailure] /\
    ~ In ObsSuccess pre /\
    1 <= 2 /\
    count_failures (pre ++ [ObsFailure]) = 2.
Proof.
  exact (poll_failed_only_after_budget the_dataset "d1" 2 5 3 parse_vars0
           (mkParseVars 0 1 3 2 true (Some "failed")) flaky_store
           (mkStub [] [] [] [] [])
           (snd (poll_while 3 the_dataset "d1" 2 5
                   (set_poll parse_vars0 0 0 false None) flaky_store))
           eq_refl eq_refl).
Defined.


(** Three documents: three complete lifecycles, in order. *)
Lemma parse_stage_one_document_at_a_time_witness :
  parse_trace_complete 2 5 (filter truthy ["d1"; "d2"; "d3"])
    (snd (parse_documents_in_dataset 3 the_dataset ["d1"; "d2"; "d3"] 2 5
            three_docs_store)).
Proof.
  exact (parse_stage_one_document_at_a_time (mkDataSet "kb" "ds-1") 2 5 3
           ["d1"; "d2"; "d3"] three_docs_store (Some true)
           (mkStub [] [] [] [] [])
           (snd (parse_documents_in_dataset 3 the_dataset ["d1"; "d2"; "d3"]
                   2 5 three_docs_store))
           eq_refl).
Defined.


(** Budget zero: two documents, no status query, result false. *)
Lemma no_budget_no_success_witness :
  exists w' tr,
    parse_documents_in_dataset 3 the_dataset ["d1"; "d2"] 0 5 flaky_store
    = (Some false, w', tr) /\
    existsb is_status_query tr = false.
Proof.
  exact (proj2 (no_budget_no_success Stub StubAPI 3 the_dataset ["d1"; "d2"]
                  0 5 flaky_store ltac:(lia))).
Defined.

(** C3, counterexample.  With two eligible files, both uploads come before
    the trigger of the first document: the second file is uploaded while
    the first document has been neither triggered nor polled. *)
Lemma second_upload_precedes_first_trigger :
  map step_of
    (snd (upload_documents 1 the_dataset (Some two_files) default_extensions
            (config_with_policy "allow") two_files_store))
  = [SUpload "a.txt"; SLookup (Some "a.txt");
     SUpload "b.txt"; SLookup (Some "b.txt");
     SWait 1; STrigger ["id-a"]; SStatus "id-a";
     SWait 1; STrigger ["id-b"]; SStatus "id-b"] /\
  ~ end_to_end_per_document
      (snd (upload_documents 1 the_dataset (Some two_files)
              default_extensions (config_with_policy "allow")
              two_files_store)).
Proof.
  split; [vm_compute; reflexivity|].
  intros H.
  assert (Hshape : exists u1 l u2 t3,
             snd (upload_documents 1 the_dataset (Some two_files)
                    default_extensions (config_with_policy "allow")
                    two_files_store)
             = [] ++ u1 :: [l] ++ u2 :: t3 /\
             is_upload u1 = true /\ is_upload u2 = true /\
             existsb is_trigger [l] = false).
  { vm_compute. eexists _, _, _, _. repeat split. }
  destruct Hshape as (u1 & l & u2 & t3 & Heq & H1 & H2 & H3).
  specialize (H _ _ _ _ _ Heq H1 H2). rewrite H3 in H. discriminate.
Qed.

(** Two files: the walk, then two lifecycles. *)
Lemma uploads_then_sequential_parse_witness :
  exists t_walk t_parse,
    snd (upload_documents 1 the_dataset (Some two_files) default_extensions
           (config_with_policy "allow") two_files_store)
    = t_walk ++ t_parse /\
    Forall (fun e => parse_stage_event e = false) t_walk /\
    Forall (fun e => parse_stage_event e = true) t_parse /\
    parse_trace_complete 10 5 ["id-a"; "id-b"] t_parse.
Proof.
  assert (Hrun : upload_documents 1 (Some (mkDataSet "kb" "ds-1"))
                   (Some two_files) default_extensions
                   (config_with_policy "allow") two_files_store
                 = (Some ["id-a"; "id-b"], mkStub [] [] [] [] [],
                    snd (upload_documents 1 the_dataset (Some two_files)
                           default_extensions (config_with_policy "allow")
                           two_files_store)))
    by (vm_compute; reflexivity).
  destruct (uploads_then_sequential_parse _ _ _ _ _ _ _ _ _ Hrun)
    as (v & w1 & t_walk & t_parse & _ & Htr & Hwalk & Hparse & _ & Hcomplete).
  exists t_walk, t_parse. repeat split; assumption.
Defined.

(** A folder that holds only an image yields no id. *)
Lemma empty_batch_skips_parse_stage_witness :
  (exists w' tr,
      upload_documents 0 the_dataset
        (Some [mkDirEntry "notes.png" true true (Some "P")])
        default_extensions None two_files_store = (Some [], w', tr) /\
      Forall (fun e => parse_stage_event e = false) tr) /\
  parse_documents_in_dataset 0 the_dataset [""] 10 5 two_files_store
  = (Some false, two_files_store, []).
Proof.
  apply (empty_batch_skips_parse_stage 0 the_dataset
           (Some [mkDirEntry "notes.png" true true (Some "P")])
           default_extensions None two_files_store [""] 10 5).
  - reflexivity.
  - reflexivity.
Defined.



(** C9, counterexample.  The upload of [a.txt] succeeds with an empty
    identifier; the summary then counts one processed file and no uploaded
    one. *)
Lemma empty_id_upload_missing_from_uploaded_count :
  fst (fst (upload_document_to_dataset the_dataset a_txt forgetful_store))
  = (true, "") /\
  summary_counts
    (fst (fst (upload_folder_loop the_dataset default_extensions "allow"
                 ingest_vars0 [a_txt] forgetful_store)))
  = (1, 0, 0, 0, 0).
Proof. vm_compute. split; reflexivity. Qed.

(** The store forgets the upload: the file is processed, no id is accepted. *)
Lemma empty_id_not_counted_as_uploaded_witness :
  exists v',
    ingest_file the_dataset default_extensions "allow" ingest_vars0 a_txt
      forgetful_store
    = (v', mkStub [] [] [] [] [],
       [] ++ snd (upload_document_to_dataset the_dataset a_txt
                    forgetful_store)) /\
    uploaded_doc_ids v' = uploaded_doc_ids ingest_vars0 /\
    processed_count v' = processed_count ingest_vars0 + 1 /\
    upload_failed_count v' = upload_failed_count ingest_vars0 /\
    skipped_count v' = skipped_count ingest_vars0.
Proof.
  assert (Hcheck : duplicate_check the_dataset "allow" (de_name a_txt)
                     (add_processed ingest_vars0) forgetful_store
                   = (add_processed ingest_vars0, Fallthrough,
                      forgetful_store, []))
    by (vm_compute; reflexivity).
  assert (Hupload : upload_document_to_dataset the_dataset a_txt
                      forgetful_store
                    = (true, "", mkStub [] [] [] [] [],
                       snd (upload_document_to_dataset the_dataset a_txt
                              forgetful_store)))
    by (vm_compute; reflexivity).
  exact (proj1 (empty_id_not_counted_as_uploaded the_dataset
                  default_extensions "allow" ingest_vars0 a_txt
                  forgetful_store _ _ _ _ _ _
                  eq_refl eq_refl Hcheck ltac:(discriminate) Hupload)).
Defined.

(** ** More on the folder walk *)

Section WalkProperties.

Context {W : Type} {API : DataSetAPI W}.
Variable dataset_object : option DataSet.
Variable allowed_extensions : list string.
Variable duplicate_handling : string.

Local Abbreviation walk :=
  (upload_folder_loop dataset_object allowed_extensions duplicate_handling).
Local Abbreviation ingest :=
  (ingest_file dataset_object allowed_extensions duplicate_handling).

Lemma ingest_file_ineligible (v : IngestVars) (f : DirEntry) (w : W) :
  eligible allowed_extensions f = false -> ingest v f w = (v, w, []).
Proof.
  unfold eligible, ingest_file. intros He.
  destruct (endswith_any _ _); [|reflexivity].
  cbn in He. rewrite He. reflexivity.
Qed.

Lemma eligible_split (f : DirEntry) :
  eligible allowed_extensions f = true ->
  endswith_any (lower (de_name f)) allowed_extensions = true /\
  de_isfile f = true.
Proof. unfold eligible. intros H. apply andb_prop in H. exact H. Qed.

(** What one file does to the counters. *)
Lemma ingest_file_counts (v : IngestVars) (f : DirEntry) (w : W) :
  let v' := fst (fst (ingest v f w)) in
  let e := if eligible allowed_extensions f then 1 else 0 in
  exists extra,
    uploaded_doc_ids v' = uploaded_doc_ids v ++ extra /\
    processed_count v' = processed_count v + e /\
    skipped_count v <= skipped_count v' /\
    replaced_count v <= replaced_count v' /\
    upload_failed_count v <= upload_failed_count v' /\
    (skipped_count v' - skipped_count v)
    + (upload_failed_count v' - upload_failed_count v)
    + Z.of_nat (List.length extra) <= e /\
    (skipped_count v' - skipped_count v)
    + (replaced_count v' - replaced_count v) <= e.
Proof.
  cbv zeta.
  destruct (eligible allowed_extensions f) eqn:He.
  - destruct (eligible_split f He) as [Hext Hfile].
    rewrite (ingest_file_eligible _ _ _ v f w Hext Hfile).
    pose proof (duplicate_check_vars dataset_object duplicate_handling
                  (de_name f) (add_processed v) w) as Hvars.
    destruct (duplicate_check _ _ _ _ w) as [[[v1 fl] w1] t1].
    destruct (upload_document_to_dataset _ f w1) as [[[success i] w2] t2].
    destruct Hvars as [[-> ->]|[-> [-> | ->]]].
    + exists []. cbn. rewrite app_nil_r. repeat split; lia.
    + destruct success; [destruct (truthy i)|];
        [exists [i]|exists []|exists []]; cbn; rewrite ?app_nil_r;
        repeat split; lia.
    + destruct success; [destruct (truthy i)|];
        [exists [i]|exists []|exists []]; cbn; rewrite ?app_nil_r;
        repeat split; lia.
  - rewrite (ingest_file_ineligible v f w He). exists []. cbn.
    rewrite app_nil_r. repeat split; lia.
Qed.

Lemma walk_counts (entries : list DirEntry) :
  forall (v : IngestVars) (w : W),
    let v' := fst (fst (walk v entries w)) in
    let e := Z.of_nat (List.length (filter (eligible allowed_extensions)
                                      entries)) in
    exists extra,
      uploaded_doc_ids v' = uploaded_doc_ids v ++ extra /\
      processed_count v' = processed_count v + e /\
      skipped_count v <= skipped_count v' /\
      replaced_count v <= replaced_count v' /\
      upload_failed_count v <= upload_failed_count v' /\
      (skipped_count v' - skipped_count v)
      + (upload_failed_count v' - upload_failed_count v)
      + Z.of_nat (List.length extra) <= e /\
      (skipped_count v' - skipped_count v)
      + (replaced_count v' - replaced_count v) <= e.
Proof.
  induction entries as [|f entries IH]; intros v w; cbv zeta.
  - exists []. cbn. rewrite app_nil_r. repeat split; lia.
  - cbn [upload_folder_loop]. unfold bind.
    destruct (ingest_file_counts v f w)
      as (x1 & Hids1 & Hp1 & Hs1 & Hr1 & Hf1 & Hsum1 & Hrep1).
    destruct (ingest_file _ _ _ v f w) as [[v1 w1] t1].
    cbn [fst snd] in Hids1, Hp1, Hs1, Hr1, Hf1, Hsum1, Hrep1.
    destruct (IH v1 w1) as (x2 & Hids2 & Hp2 & Hs2 & Hr2 & Hf2 & Hsum2 & Hrep2).
    destruct (upload_folder_loop _ _ _ v1 entries w1) as [[v2 w2] t2].
    cbn [fst snd] in *.
    exists (x1 ++ x2). rewrite Hids2, Hids1, app_assoc, length_app.
    cbn [filter]. destruct (eligible allowed_extensions f);
      cbn [List.length]; repeat split; lia.
Qed.


(** X2.  At the end of the walk the counters are consistent: every
    processed file is at most one of skipped, failed and accepted, and a
    file is never both skipped and replaced, so skipped + failed +
    accepted ids and skipped + replaced are both bounded by the number of
    processed files. *)
Theorem walk_counters_consistent (entries : list DirEntry) (w : W) :
  let v' := fst (fst (walk ingest_vars0 entries w)) in
  0 <= skipped_count v' /\ 0 <= replaced_count v' /\
  0 <= upload_failed_count v' /\
  skipped_count v' + upload_failed_count v'
  + Z.of_nat (List.length (uploaded_doc_ids v')) <= processed_count v' /\
  skipped_count v' + replaced_count v' <= processed_count v'.
Proof.
  cbv zeta.
  destruct (walk_counts entries ingest_vars0 w)
    as (extra & Hids & Hp & Hs & Hr & Hf & Hsum & Hrep).
  rewrite Hids. cbn [ingest_vars0 uploaded_doc_ids skipped_count
                     replaced_count upload_failed_count processed_count
                     app] in *.
  repeat split; lia.
Qed.

(** X3.  Entries that are not eligible leave no mark: the walk over a
    folder gives the same variables, the same store and the same calls as
    the walk over its eligible entries alone. *)
Theorem walk_ignores_ineligible_entries (entries : list DirEntry) :
  forall (v : IngestVars) (w : W),
    walk v entries w
    = walk v (filter (eligible allowed_extensions) entries) w.
Proof.
  induction entries as [|f entries IH]; intros v w; [reflexivity|].
  cbn [filter]. destruct (eligible allowed_extensions f) eqn:He.
  - cbn [upload_folder_loop]. unfold bind.
    destruct (ingest_file _ _ _ v f w) as [[v1 w1] t1].
    rewrite IH. reflexivity.
  - cbn [upload_folder_loop]. unfold bind.
    rewrite (ingest_file_ineligible v f w He). rewrite IH.
    destruct (upload_folder_loop _ _ _ v _ w) as [[v2 w2] t2]. reflexivity.
Qed.

End WalkProperties.

(** ** More on the duplicate policies *)

Section PolicyProperties.

Context {W : Type} {API : DataSetAPI W}.
Variable dataset_object : option DataSet.
Variable allowed_extensions : list string.

Local Abbreviation no_delete tr := (Forall (fun e => is_delete e = false) tr).

Lemma lookup_args_no_id (filename : string) : la_id (lookup_args filename) = None.
Proof. unfold lookup_args. destruct (truthy filename); reflexivity. Qed.

Lemma keyword_lookup_event (dataset : DataSet) (filename : string) (w : W) :
  list_documents_in_dataset (Some dataset) (Some filename) 1 100 None w
  = (match snd (api_list_documents w (lookup_args filename)) with
     | Ok documents => documents
     | Raised => []
     end,
     fst (api_list_documents w (lookup_args filename)),
     [EvList (lookup_args filename)
        (snd (api_list_documents w (lookup_args filename)))]).
Proof.
  unfold list_documents_in_dataset, bind, call_list_documents, lookup_args.
  cbn [truthy_opt].
  destruct (truthy filename);
    destruct (api_list_documents w _) as [w1 [documents|]]; reflexivity.
Qed.

Lemma lookup_no_delete (keywords : option string) (page page_size : Z)
    (id : option string) (w : W) :
  no_delete (snd (list_documents_in_dataset dataset_object keywords page
                    page_size id w)).
Proof.
  unfold list_documents_in_dataset, bind, call_list_documents.
  destruct dataset_object; [|constructor].
  destruct (truthy_opt id); [|destruct (truthy_opt keywords)];
    destruct (api_list_documents w _) as [w1 [documents|]];
    cbn; repeat constructor.
Qed.

Lemma upload_document_no_delete (f : DirEntry) (w : W) :
  no_delete (snd (upload_document_to_dataset dataset_object f w)).
Proof.
  unfold upload_document_to_dataset, bind, call_upload_documents,
    call_list_documents.
  destruct dataset_object; [|constructor].
  destruct (negb (de_exists f)); [constructor|].
  destruct (de_blob f) as [blob|]; [|constructor].
  destruct (api_upload_documents w _ _) as [w1 [u|]];
    [|cbn; repeat constructor].
  destruct (api_list_documents w1 _) as [w2 [[|d0 rest]|]];
    [cbn; repeat constructor| |cbn; repeat constructor].
  destruct (find_doc_id (de_name f) (d0 :: rest)) as [i|];
    [destruct (truthy i); [|destruct (hasattr d0 doc_id);
                             [destruct (getattr d0 doc_id)|]]|];
    cbn; repeat constructor.
Qed.

Lemma duplicate_check_no_delete (duplicate_handling filename : string)
    (v : IngestVars) (w : W) :
  duplicate_handling <> "replace" ->
  no_delete (snd (duplicate_check dataset_object duplicate_handling filename
                    v w)).
Proof.
  intros Hpolicy. apply String.eqb_neq in Hpolicy.
  unfold duplicate_check.
  destruct (negb (String.eqb duplicate_handling "allow")); [|constructor].
  unfold bind.
  pose proof (lookup_no_delete (Some filename) 1 100 None w) as Hq.
  destruct (list_documents_in_dataset _ _ _ _ _ w) as [[existing w1] t1].
  cbn [snd] in Hq. rewrite Hpolicy, andb_false_r.
  destruct (_ && str_in _ _); cbn; rewrite app_nil_r; exact Hq.
Qed.

Lemma walk_no_delete (duplicate_handling : string) (entries : list DirEntry) :
  duplicate_handling <> "replace" ->
  forall (v : IngestVars) (w : W),
    no_delete (snd (upload_folder_loop dataset_object allowed_extensions
                      duplicate_handling v entries w)).
Proof.
  intros Hpolicy. induction entries as [|f entries IH]; intros v w;
    [constructor|].
  cbn [upload_folder_loop]. unfold bind.
  assert (Hfile : no_delete (snd (ingest_file dataset_object
                                    allowed_extensions duplicate_handling
                                    v f w))).
  { destruct (eligible allowed_extensions f) eqn:He.
    - destruct (eligible_split _ f He) as [Hext Hisfile].
      rewrite (ingest_file_eligible _ _ _ v f w Hext Hisfile).
      pose proof (duplicate_check_no_delete duplicate_handling (de_name f)
                    (add_processed v) w Hpolicy) as Hc.
      destruct (duplicate_check _ _ _ _ w) as [[[v1 fl] w1] t1].
      pose proof (upload_document_no_delete f w1) as Hu.
      destruct (upload_document_to_dataset _ f w1) as [[[success i] w2] t2].
      cbn [snd] in Hc, Hu.
      destruct fl; cbn [snd]; try exact Hc; apply Forall_app; split;
        assumption.
    - rewrite (ingest_file_ineligible _ _ _ v f w He). constructor. }
  destruct (ingest_file _ _ _ v f w) as [[v1 w1] t1].
  specialize (IH v1 w1).
  destruct (upload_folder_loop _ _ _ v1 entries w1) as [[v2 w2] t2].
  cbn [snd] in *. apply Forall_app. split; assumption.
Qed.

(** X4.  A document of the store is deleted only under the [replace]
    policy: with any other policy in the configuration, [upload_documents]
    never issues a delete request, in the folder walk or in the parse
    stage. *)
Theorem delete_only_under_replace (fuel : nat)
    (folder : option (list DirEntry)) (config : option Config) (w : W) :
  config_policy config <> "replace" ->
  existsb is_delete
    (snd (upload_documents fuel dataset_object folder allowed_extensions
            config w)) = false.
Proof.
  intros Hpolicy.
  assert (Hall : no_delete (snd (upload_documents fuel dataset_object folder
                                   allowed_extensions config w))).
  { destruct dataset_object as [dataset|] eqn:Hds;
      [destruct folder as [entries|]|]; try constructor.
    destruct (upload_documents fuel _ _ _ _ w) as [[r w'] tr] eqn:Hrun.
    destruct (upload_documents_trace _ _ _ _ _ _ _ _ _ Hrun)
      as (v & w1 & t_walk & t_parse & Hwalk & -> & _ & _ & Hparse & _).
    cbn [snd]. apply Forall_app. split.
    - pose proof (walk_no_delete (config_policy config) entries Hpolicy
                    ingest_vars0 w) as Hw.
      rewrite Hds in Hw. rewrite Hwalk in Hw. exact Hw.
    - eapply Forall_impl; [|exact Hparse]. intros e (d & _ & He).
      destruct e; try reflexivity. destruct He. }
  destruct (existsb is_delete _) eqn:Hex; [|reflexivity].
  apply existsb_exists in Hex. destruct Hex as (e & Hin & He).
  rewrite Forall_forall in Hall. rewrite (Hall e Hin) in He. discriminate.
Qed.

Lemma upload_document_upload_count (dataset : DataSet) (f : DirEntry) (w : W) :
  count_events is_upload
    (snd (upload_document_to_dataset (Some dataset) f w))
  = if readable f then 1 else 0.
Proof.
  unfold upload_document_to_dataset, readable, bind, call_upload_documents,
    call_list_documents.
  destruct (de_exists f); [|reflexivity]. cbn [negb andb].
  destruct (de_blob f) as [blob|]; [|reflexivity].
  destruct (api_upload_documents w _ _) as [w1 [u|]]; [|reflexivity].
  destruct (api_list_documents w1 _) as [w2 [[|d0 rest]|]];
    [reflexivity| |reflexivity].
  destruct (find_doc_id (de_name f) (d0 :: rest)) as [i|];
    [destruct (truthy i); [|destruct (hasattr d0 doc_id);
                             [destruct (getattr d0 doc_id)|]]|];
    reflexivity.
Qed.

Lemma count_events_app (p : event -> bool) (t1 t2 : list event) :
  count_events p (t1 ++ t2) = count_events p t1 + count_events p t2.
Proof. unfold count_events. rewrite filter_app, length_app. lia. Qed.


(** X6.  The duplicate check fails open.  For an eligible file under a
    policy other than [allow], when the lookup finds nothing (an empty
    listing, which is also what a raising store or an invalid dataset
    gives), or when the policy is none of [skip_name], [skip_content] and
    [replace], the file is not skipped and not replaced: after the lookup
    it goes to the upload, whatever the store lists under its name. *)
Theorem duplicate_check_fails_open (duplicate_handling : string)
    (v : IngestVars) (f : DirEntry) (w : W)
    (existing : list Doc) (w1 : W) (t1 : list event) :
  eligible allowed_extensions f = true ->
  duplicate_handling <> "allow" ->
  list_documents_in_dataset dataset_object (Some (de_name f)) 1 100 None w
  = (existing, w1, t1) ->
  existing = [] \/
  (duplicate_handling <> "skip_name" /\ duplicate_handling <> "skip_content"
   /\ duplicate_handling <> "replace") ->
  ingest_file dataset_object allowed_extensions duplicate_handling v f w
  = let '(success, i, w2, t2) :=
      upload_document_to_dataset dataset_object f w1 in
    (if success then
       if truthy i then append_doc_id (add_processed v) i
       else add_processed v
     else add_upload_failed (add_processed v), w2, t1 ++ t2).
Proof.
  intros He Hallow Hlookup Hopen.
  destruct (eligible_split _ f He) as [Hext Hisfile].
  rewrite (ingest_file_eligible _ _ _ v f w Hext Hisfile).
  assert (Hcheck : duplicate_check dataset_object duplicate_handling
                     (de_name f) (add_processed v) w
                   = (add_processed v, Fallthrough, w1, t1)).
  { unfold duplicate_check, bind.
    apply String.eqb_neq in Hallow. rewrite Hallow. cbn [negb].
    rewrite Hlookup.
    destruct Hopen as [->|(H1 & H2 & H3)].
    - cbn. rewrite app_nil_r. reflexivity.
    - apply String.eqb_neq in H1, H2, H3.
      cbn [str_in existsb]. rewrite H1, H2, H3. cbn [orb].
      rewrite !andb_false_r. cbn. rewrite app_nil_r. reflexivity. }
  rewrite Hcheck. reflexivity.
Qed.

End PolicyProperties.

(** ** A folder that is already in the store *)

Section AlreadyListed.

Context {W : Type} {API : DataSetAPI W}.
Variable dataset : DataSet.
Variable allowed_extensions : list string.
Variable duplicate_handling : string.

Hypothesis skip_policy :
  duplicate_handling = "skip_name" \/ duplicate_handling = "skip_content".

Hypothesis always_listed :
  forall (w : W) (a : ListArgs),
    la_id a = None ->
    exists w' d l, api_list_documents w a = (w', Ok (d :: l)).

Lemma ingest_file_already_listed (v : IngestVars) (f : DirEntry) (w : W) :
  eligible allowed_extensions f = true ->
  exists w' e,
    ingest_file (Some dataset) allowed_extensions duplicate_handling v f w
    = (add_skipped (add_processed v), w', [e]) /\
    is_lookup e = true.
Proof.
  intros He. destruct (eligible_split _ f He) as [Hext Hisfile].
  rewrite (ingest_file_eligible _ _ _ v f w Hext Hisfile).
  destruct (always_listed w (lookup_args (de_name f))
              (lookup_args_no_id (de_name f))) as (w' & d & l & Hlist).
  assert (Hcheck : duplicate_check (Some dataset) duplicate_handling
                     (de_name f) (add_processed v) w
                   = (add_skipped (add_processed v), Continue, w',
                      [EvList (lookup_args (de_name f)) (Ok (d :: l))])).
  { unfold duplicate_check, bind.
    destruct skip_policy as [-> | ->];
      cbn [String.eqb Ascii.eqb Bool.eqb negb];
      rewrite (keyword_lookup_event dataset (de_name f) w), Hlist;
      reflexivity. }
  rewrite Hcheck. eexists _, _. split; [reflexivity|].
  cbn. rewrite lookup_args_no_id. reflexivity.
Qed.

Lemma walk_already_listed (entries : list DirEntry) :
  forall (v : IngestVars) (w : W),
  exists v' w' tr,
    upload_folder_loop (Some dataset) allowed_extensions duplicate_handling
      v entries w = (v', w', tr) /\
    uploaded_doc_ids v' = uploaded_doc_ids v /\
    skipped_count v'
    = skipped_count v
      + Z.of_nat (List.length (filter (eligible allowed_extensions) entries))
    /\
    Forall (fun e => is_lookup e = true) tr /\
    List.length tr
    = List.length (filter (eligible allowed_extensions) entries).
Proof.
  induction entries as [|f entries IH]; intros v w.
  - exists v, w, []. cbn. repeat split; try constructor. lia.
  - cbn [upload_folder_loop filter]. unfold bind.
    destruct (eligible allowed_extensions f) eqn:He.
    + destruct (ingest_file_already_listed v f w He) as (w1 & e & -> & Hl).
      destruct (IH (add_skipped (add_processed v)) w1)
        as (v' & w' & tr & -> & Hids & Hs & Hall & Hlen).
      eexists _, _, _. split; [reflexivity|].
      cbn [add_skipped add_processed uploaded_doc_ids skipped_count] in Hids, Hs.
      cbn [app List.length]. repeat split.
      * exact Hids.
      * rewrite Hs. lia.
      * constructor; assumption.
      * rewrite Hlen. reflexivity.
    + rewrite (ingest_file_ineligible _ _ _ v f w He).
      destruct (IH v w) as (v' & w' & tr & -> & Hids & Hs & Hall & Hlen).
      eexists _, _, _. split; [reflexivity|].
      cbn [app]. repeat split; assumption.
Qed.

End AlreadyListed.


(** ** The extension filter *)

Lemma lower_ascii_not_upper (c : ascii) : is_upper_ascii (lower_ascii c) = false.
Proof.
  destruct c as [[] [] [] [] [] [] [] []]; reflexivity.
Qed.

Lemma lower_has_no_upper (s : string) : has_upper (lower s) = false.
Proof.
  induction s as [|c s IH]; [reflexivity|].
  cbn [lower has_upper]. rewrite lower_ascii_not_upper, IH. reflexivity.
Qed.

Lemma endswith_has_upper (s suffix : string) :
  endswith s suffix = true -> has_upper suffix = true -> has_upper s = true.
Proof.
  induction s as [|c s IH]; cbn [endswith]; intros He Hu.
  - rewrite orb_false_r in He. apply String.eqb_eq in He. subst suffix.
    exact Hu.
  - apply orb_prop in He. destruct He as [He|He].
    + apply String.eqb_eq in He. subst suffix. exact Hu.
    + cbn [has_upper]. rewrite (IH He Hu). apply orb_true_r.
Qed.

(** X8.  The file name is put in lower case before the comparison and the
    allowed extensions are not: an allowed extension that holds an
    upper-case letter matches no file name, so when all of them do, the
    folder walk ignores every entry of the folder. *)
Theorem upper_case_extension_never_matches
    (W : Type) (API : DataSetAPI W) (dataset_object : option DataSet)
    (allowed_extensions : list string) (duplicate_handling : string)
    (entries : list DirEntry) (v : IngestVars) (w : W) :
  Forall (fun ext => has_upper ext = true) allowed_extensions ->
  upload_folder_loop dataset_object allowed_extensions duplicate_handling
    v entries w = (v, w, []).
Proof.
  intros Hupper.
  assert (Hnone : forall f, eligible allowed_extensions f = false).
  { intros f. unfold eligible, endswith_any.
    destruct (existsb _ allowed_extensions) eqn:Hex; [|reflexivity].
    apply existsb_exists in Hex. destruct Hex as (ext & Hin & Hends).
    rewrite Forall_forall in Hupper.
    pose proof (endswith_has_upper _ _ Hends (Hupper ext Hin)) as H.
    rewrite lower_has_no_upper in H. discriminate. }
  rewrite walk_ignores_ineligible_entries.
  replace (filter (eligible allowed_extensions) entries) with (@nil DirEntry);
    [reflexivity|].
  induction entries as [|f entries IH]; [reflexivity|].
  cbn [filter]. rewrite Hnone. exact IH.
Qed.

(** ** The upload of one file *)

Section UploadProperties.

Context {W : Type} {API : DataSetAPI W}.

(** The listing [upload_document_to_dataset] asks for after the upload. *)
Local Abbreviation recovery_args f :=
  (mkListArgs None (Some (de_name f)) None None).

(** The function, once the store has accepted the upload. *)
Lemma upload_document_accepted (dataset : DataSet) (f : DirEntry) (w : W)
    (blob : string) (w1 : W) (u : unit) :
  de_exists f = true ->
  de_blob f = Some blob ->
  api_upload_documents w (de_name f) blob = (w1, Ok u) ->
  upload_document_to_dataset (Some dataset) f w
  = (true,
     match snd (api_list_documents w1 (recovery_args f)) with
     | Ok (d0 :: rest) =>
         match find_doc_id (de_name f) (d0 :: rest) with
         | Ok i =>
             if truthy i then i
             else if hasattr d0 doc_id then
               match getattr d0 doc_id with Some i0 => i0 | None => "" end
             else ""
         | Raised => ""
         end
     | _ => ""
     end,
     fst (api_list_documents w1 (recovery_args f)),
     [EvUpload (de_name f) blob (Ok u);
      EvList (recovery_args f) (snd (api_list_documents w1 (recovery_args f)))]).
Proof.
  intros Hexists Hblob Hupload.
  unfold upload_document_to_dataset, bind, call_upload_documents,
    call_list_documents.
  cbv zeta. rewrite Hexists, Hblob. cbn [negb]. rewrite Hupload.
  destruct (api_list_documents w1 _) as [w2 [[|d0 rest]|]];
    [reflexivity| |reflexivity].
  cbn [fst snd].
  destruct (find_doc_id (de_name f) (d0 :: rest)) as [i|];
    [destruct (truthy i); [|destruct (hasattr d0 doc_id);
                             [destruct (getattr d0 doc_id)|]]|];
    reflexivity.
Qed.

(** X9.  [upload_document_to_dataset] reports success exactly when the
    dataset is valid, the file exists and can be read, and the store
    accepts the upload; what happens to the recovery of the identifier
    afterwards never turns the success into a failure.  A failure always
    comes with the empty identifier and without any listing call, and when
    the dataset is invalid or the file cannot be read the store is not
    contacted at all. *)
Theorem upload_succeeds_iff_store_accepts
    (dataset_object : option DataSet) (f : DirEntry) (w : W) :
  let '(success, i, w', tr) := upload_document_to_dataset dataset_object f w in
  (success = true <->
   dataset_object <> None /\ de_exists f = true /\
   exists blob u,
     de_blob f = Some blob /\
     snd (api_upload_documents w (de_name f) blob) = Ok u) /\
  (success = false -> i = "" /\ existsb is_listing tr = false) /\
  (dataset_object = None \/ readable f = false -> (w', tr) = (w, [])).
Proof.
  destruct dataset_object as [dataset|].
  - destruct (de_exists f) eqn:Hexists.
    + destruct (de_blob f) as [blob|] eqn:Hblob.
      * destruct (api_upload_documents w (de_name f) blob) as [w1 [u|]]
          eqn:Hupload.
        -- rewrite (upload_document_accepted dataset f w blob w1 u Hexists
                      Hblob Hupload).
           split; [|split].
           ++ split; [intros _|reflexivity].
              split; [discriminate|]. split; [reflexivity|].
              exists blob, u. rewrite Hupload. split; reflexivity.
           ++ discriminate.
           ++ unfold readable. rewrite Hexists, Hblob.
              intros [H|H]; discriminate.
        -- unfold upload_document_to_dataset, bind, call_upload_documents.
           cbv zeta. rewrite Hexists, Hblob. cbn [negb]. rewrite Hupload.
           cbn.
           split; [|split].
           ++ split; [discriminate|].
              intros (_ & _ & blob' & u & Hb & Hu).
              injection Hb as <-. rewrite Hupload in Hu. discriminate.
           ++ intros _. split; reflexivity.
           ++ unfold readable. rewrite Hexists, Hblob.
              intros [H|H]; discriminate.
      * unfold upload_document_to_dataset. rewrite Hexists, Hblob. cbn.
        split; [|split].
        -- split; [discriminate|].
           intros (_ & _ & blob' & u & Hb & _). discriminate.
        -- intros _. split; reflexivity.
        -- reflexivity.
    + unfold upload_document_to_dataset. rewrite Hexists. cbn.
      split; [|split].
      * split; [discriminate|]. intros (_ & H & _). discriminate.
      * intros _. split; reflexivity.
      * reflexivity.
  - cbn. split; [|split].
    + split; [discriminate|]. intros (H & _). congruence.
    + intros _. split; reflexivity.
    + reflexivity.
Qed.

Lemma find_doc_id_found (file_name : string) (docs : list Doc) (i : string) :
  find_doc_id file_name docs = Ok i ->
  truthy i = true ->
  exists d,
    In d docs /\ name_matches file_name d = true /\ getattr d doc_id = Some i.
Proof.
  induction docs as [|d docs IH]; cbn [find_doc_id]; intros Hfind Hi.
  - injection Hfind as <-. discriminate.
  - destruct (name_matches file_name d) eqn:Hm.
    + destruct (getattr d doc_id) as [j|] eqn:Hid; [|discriminate].
      injection Hfind as ->. exists d. repeat split; try assumption.
      left. reflexivity.
    + destruct (IH Hfind Hi) as (d' & Hin & Hm' & Hid').
      exists d'. repeat split; try assumption. right. exact Hin.
Qed.

Lemma find_doc_id_skips (file_name : string) (pre rest : list Doc) :
  Forall (fun d => name_matches file_name d = false) pre ->
  find_doc_id file_name (pre ++ rest) = find_doc_id file_name rest.
Proof.
  induction 1 as [|d pre Hd Hpre IH]; [reflexivity|].
  cbn [app find_doc_id]. rewrite Hd. exact IH.
Qed.

(** X10.  An identifier that [upload_document_to_dataset] returns is never
    made up: a non-empty identifier is the [id] of a document that the
    store listed under the file name right after accepting the upload, and
    that document either bears the file name or is the first of the
    listing. *)
Theorem recovered_id_comes_from_the_listing
    (dataset_object : option DataSet) (f : DirEntry) (w : W)
    (i : string) (w' : W) (tr : list event) :
  upload_document_to_dataset dataset_object f w = (true, i, w', tr) ->
  truthy i = true ->
  exists blob w1 u docs d,
    de_blob f = Some blob /\
    api_upload_documents w (de_name f) blob = (w1, Ok u) /\
    api_list_documents w1 (recovery_args f) = (w', Ok docs) /\
    In d docs /\ getattr d doc_id = Some i /\
    (name_matches (de_name f) d = true \/ hd_error docs = Some d).
Proof.
  intros Hrun Hi.
  pose proof (upload_succeeds_iff_store_accepts dataset_object f w) as Hspec.
  rewrite Hrun in Hspec. destruct Hspec as [[Hacc _] _].
  destruct (Hacc eq_refl) as (Hds & Hexists & blob & u & Hblob & Hu).
  destruct dataset_object as [dataset|]; [|congruence].
  destruct (api_upload_documents w (de_name f) blob) as [w1 r] eqn:Hupload.
  cbn [snd] in Hu. subst r.
  rewrite (upload_document_accepted dataset f w blob w1 u Hexists Hblob
             Hupload) in Hrun.
  destruct (api_list_documents w1 (recovery_args f)) as [w2 l] eqn:Hlist.
  cbn [fst snd] in Hrun.
  exists blob, w1, u.
  destruct l as [[|d0 rest]|];
    [injection Hrun as <- _ _; discriminate|
    |injection Hrun as <- _ _; discriminate].
  exists (d0 :: rest).
  destruct (find_doc_id (de_name f) (d0 :: rest)) as [j|] eqn:Hfind;
    [|injection Hrun as <- _ _; discriminate].
  destruct (truthy j) eqn:Hj.
  - injection Hrun as -> -> _.
    destruct (find_doc_id_found _ _ _ Hfind Hi) as (d & Hin & Hm & Hd).
    exists d. repeat split; try assumption. left. exact Hm.
  - destruct (hasattr d0 doc_id);
      [|injection Hrun as <- _ _; discriminate].
    destruct (getattr d0 doc_id) as [i0|] eqn:Hid0;
      [|injection Hrun as <- _ _; discriminate].
    injection Hrun as -> -> _.
    exists d0. repeat split; try assumption.
    + left. reflexivity.
    + right. reflexivity.
Qed.

(** X11.  The recovery of the identifier prefers the name: when the store
    accepts the upload and its listing holds a document that bears the file
    name and has a non-empty [id], with no document of that name before it,
    the identifier returned is that document's, wherever it stands in the
    listing. *)
Theorem first_name_match_gives_the_id
    (dataset : DataSet) (f : DirEntry) (w : W) (blob : string) (w1 : W)
    (u : unit) (w2 : W) (pre post : list Doc) (d : Doc) (i : string) :
  de_exists f = true ->
  de_blob f = Some blob ->
  api_upload_documents w (de_name f) blob = (w1, Ok u) ->
  api_list_documents w1 (recovery_args f) = (w2, Ok (pre ++ d :: post)) ->
  Forall (fun d' => name_matches (de_name f) d' = false) pre ->
  name_matches (de_name f) d = true ->
  getattr d doc_id = Some i ->
  truthy i = true ->
  fst (upload_document_to_dataset (Some dataset) f w) = (true, i, w2).
Proof.
  intros Hexists Hblob Hupload Hlist Hpre Hm Hid Hi.
  rewrite (upload_document_accepted dataset f w blob w1 u Hexists Hblob
             Hupload), Hlist.
  cbn [fst snd].
  assert (Hfind : find_doc_id (de_name f) (pre ++ d :: post) = Ok i).
  { rewrite (find_doc_id_skips _ _ _ Hpre). cbn [find_doc_id].
    rewrite Hm, Hid. reflexivity. }
  destruct (pre ++ d :: post) as [|d0 rest] eqn:Hdocs.
  - destruct pre; discriminate.
  - rewrite Hfind, Hi. reflexivity.
Qed.

Lemma find_doc_id_no_match (file_name : string) (docs : list Doc) :
  Forall (fun d => name_matches file_name d = false) docs ->
  find_doc_id file_name docs = Ok "".
Proof.
  intros H. rewrite <- (app_nil_r docs), (find_doc_id_skips _ _ _ H).
  reflexivity.
Qed.

(** X12.  Without a document of the file's name in the listing the
    recovery falls back on the first document listed: the identifier
    returned is that document's [id], although its name is another, and it
    is empty only when that document has no [id] to read. *)
Theorem no_name_match_takes_first_listed
    (dataset : DataSet) (f : DirEntry) (w : W) (blob : string) (w1 : W)
    (u : unit) (w2 : W) (d0 : Doc) (rest : list Doc) :
  de_exists f = true ->
  de_blob f = Some blob ->
  api_upload_documents w (de_name f) blob = (w1, Ok u) ->
  api_list_documents w1 (recovery_args f) = (w2, Ok (d0 :: rest)) ->
  Forall (fun d => name_matches (de_name f) d = false) (d0 :: rest) ->
  fst (upload_document_to_dataset (Some dataset) f w)
  = (true,
     match getattr d0 doc_id with Some i0 => i0 | None => "" end,
     w2).
Proof.
  intros Hexists Hblob Hupload Hlist Hnone.
  rewrite (upload_document_accepted dataset f w blob w1 u Hexists Hblob
             Hupload), Hlist.
  cbn [fst snd]. rewrite (find_doc_id_no_match _ _ Hnone).
  cbn [truthy String.eqb negb].
  unfold hasattr, getattr.
  destruct (doc_is_dict d0); [reflexivity|].
  destruct (doc_id d0); reflexivity.
Qed.

End UploadProperties.

(** ** More on the parse stage *)

Section ParseAccounting.

Context {W : Type} {API : DataSetAPI W}.
Variable dataset_object : option DataSet.
Variables max_retries retry_interval : Z.

Local Abbreviation poll fuel d :=
  (poll_while fuel dataset_object d max_retries retry_interval).
Local Abbreviation observations k d :=
  (poll_observations k dataset_object d retry_interval).

(** How the loop can leave the two counts. *)
Lemma poll_while_outcome (fuel : nat) (d : string) (v v' : ParseVars)
    (w w' : W) (tr : list event) :
  parse_completed v = false ->
  poll fuel d v w = (Some v', w', tr) ->
  (parse_completed v' = true /\
   ((success_count v' = success_count v + 1 /\
     failed_count v' = failed_count v) \/
    (success_count v' = success_count v /\
     failed_count v' = failed_count v + 1))) \/
  (parse_completed v' = false /\
   success_count v' = success_count v /\ failed_count v' = failed_count v).
Proof.
  intros Hpc Hrun.
  destruct (running max_retries v) eqn:Hrunning.
  - destruct (poll_while_returned _ _ _ _ fuel _ _ _ _ _ Hrunning Hrun)
      as (pre & last & _ & _ & _ & Hlast & Hc & _ & Hs & Hf).
    left. split; [exact Hc|].
    destruct Hlast as [->|[-> _]]; cbn [is_success is_failure] in Hs, Hf;
      [left|right]; split; lia.
  - rewrite (poll_while_stopped _ _ _ _ fuel _ _ Hrunning) in Hrun.
    injection Hrun as <- _ _. right. repeat split. exact Hpc.
Qed.

Lemma parse_one_counts (fuel : nat) (v v' : ParseVars) (d : string)
    (w w' : W) (tr : list event) :
  parse_one fuel dataset_object max_retries retry_interval v d w
  = (Some v', w', tr) ->
  success_count v <= success_count v' /\
  failed_count v <= failed_count v' /\
  success_count v' + failed_count v'
  = success_count v + failed_count v + 1.
Proof.
  unfold parse_one, bind, sleep, call_async_parse_documents.
  destruct (api_async_parse_documents (api_sleep w 1) [d]) as [w1 [u|]].
  - destruct (poll_while fuel _ _ _ _ _ w1) as [[[v2|] w2] t2] eqn:Hpoll;
      [|intros H; discriminate].
    destruct (poll_while_outcome fuel d (set_poll v 0 0 false None) _ _ _ _
                eq_refl Hpoll)
      as [[Hc [[Hs Hf]|[Hs Hf]]]|[Hc [Hs Hf]]];
      rewrite Hc; cbn [negb set_poll success_count failed_count] in *;
      intros H; injection H as <- _ _;
      cbn [add_failed success_count failed_count]; lia.
  - intros H. injection H as <- _ _.
    cbn [add_failed success_count failed_count]. lia.
Qed.

(** X13.  Every document of a finished parse stage is counted once,
    either as parsed or as failed: the two counts of the statistics line
    add up to the number of ids handled. *)
Theorem parse_counts_every_document_once (fuel : nat) (ids : list string) :
  forall (v v' : ParseVars) (w w' : W) (tr : list event),
    parse_for fuel dataset_object max_retries retry_interval v ids w
    = (Some v', w', tr) ->
    success_count v <= success_count v' /\
    failed_count v <= failed_count v' /\
    success_count v' + failed_count v'
    = success_count v + failed_count v + Z.of_nat (List.length ids).
Proof.
  induction ids as [|d ids IH]; intros v v' w w' tr Hrun.
  - cbn in Hrun. injection Hrun as <- _ _. cbn. lia.
  - cbn [parse_for] in Hrun. unfold bind in Hrun.
    destruct (parse_one fuel _ _ _ v d w) as [[[v1|] w1] t1] eqn:Hone;
      [|discriminate].
    destruct (parse_for fuel _ _ _ v1 ids w1) as [[[v2|] w2] t2] eqn:Hrest;
      [|discriminate].
    injection Hrun as <- _ _.
    pose proof (parse_one_counts fuel _ _ _ _ _ _ Hone) as H1.
    pose proof (IH _ _ _ _ _ Hrest) as H2.
    cbn [List.length]. lia.
Qed.

Lemma triggered_app (t1 t2 : list event) :
  triggered (t1 ++ t2) = triggered t1 ++ triggered t2.
Proof.
  induction t1 as [|e t1 IH]; [reflexivity|].
  destruct e; cbn [app triggered]; rewrite IH; reflexivity.
Qed.

Lemma lookup_triggers_nothing (keywords : option string) (page page_size : Z)
    (id : option string) (w : W) :
  triggered (snd (list_documents_in_dataset dataset_object keywords page
                    page_size id w)) = [].
Proof.
  unfold list_documents_in_dataset, bind, call_list_documents.
  destruct dataset_object; [|reflexivity].
  destruct (truthy_opt id); [|destruct (truthy_opt keywords)];
    destruct (api_list_documents w _) as [w1 [documents|]]; reflexivity.
Qed.

Lemma poll_triggers_nothing (d : string) (fuel : nat) :
  forall (v : ParseVars) (w : W), triggered (snd (poll fuel d v w)) = [].
Proof.
  induction fuel as [|fuel IH]; intros v w.
  - cbn [poll_while]. destruct (_ && _); reflexivity.
  - destruct (running max_retries v) eqn:Hrunning.
    + destruct (poll_while_round dataset_object d max_retries retry_interval
                  fuel v w Hrunning) as (v1 & fl & _ & ->).
      pose proof (lookup_triggers_nothing None 1 100 (Some d) w) as Hq.
      specialize (IH v1 (api_sleep
                           (snd (fst (list_documents_in_dataset dataset_object
                                        None 1 100 (Some d) w)))
                           retry_interval)).
      destruct (poll fuel d v1 _) as [[r w2] t2]. cbn [snd] in IH.
      destruct fl; cbn [snd]; rewrite ?triggered_app, Hq;
        cbn [triggered app]; try rewrite IH; reflexivity.
    + rewrite (poll_while_stopped _ _ _ _ (S fuel) _ _ Hrunning).
      reflexivity.
Qed.

Lemma parse_one_triggers (fuel : nat) (v : ParseVars) (d : string) (w : W) :
  triggered (snd (parse_one fuel dataset_object max_retries retry_interval
                    v d w)) = [[d]].
Proof.
  unfold parse_one, bind, sleep, call_async_parse_documents.
  destruct (api_async_parse_documents (api_sleep w 1) [d]) as [w1 [u|]];
    [|reflexivity].
  pose proof (poll_triggers_nothing d fuel (set_poll v 0 0 false None) w1)
    as Hp.
  destruct (poll_while fuel _ _ _ _ _ w1) as [[[v2|] w2] t2];
    cbn [snd] in Hp; [destruct (negb (parse_completed v2))|];
    cbn; rewrite triggered_app, Hp; reflexivity.
Qed.

Lemma parse_for_triggers (fuel : nat) (ids : list string) :
  forall (v : ParseVars) (w : W),
    let run := parse_for fuel dataset_object max_retries retry_interval
                 v ids w in
    exists k,
      triggered (snd run) = map (fun d => [d]) (firstn k ids) /\
      (fst (fst run) <> None -> triggered (snd run) = map (fun d => [d]) ids).
Proof.
  induction ids as [|d ids IH]; intros v w; cbv zeta.
  - exists 0%nat. cbn. split; reflexivity.
  - cbn [parse_for]. unfold bind.
    pose proof (parse_one_triggers fuel v d w) as H1.
    destruct (parse_one fuel _ _ _ v d w) as [[[v1|] w1] t1]; cbn [snd] in H1.
    + destruct (IH v1 w1) as (k & Hk & Hall). cbv zeta in Hk, Hall.
      destruct (parse_for fuel _ _ _ v1 ids w1) as [[r w2] t2].
      cbn [fst snd] in *. exists (S k).
      rewrite triggered_app, H1. cbn [firstn map app]. split.
      * rewrite Hk. reflexivity.
      * intros Hr. rewrite (Hall Hr). reflexivity.
    + exists 1%nat. cbn [fst snd ret]. rewrite app_nil_r, H1.
      split; [reflexivity|]. intros H. congruence.
Qed.

Lemma observations_length (d : string) (k : nat) :
  forall w : W, List.length (observations k d w) = k.
Proof.
  induction k as [|k IH]; intros w; [reflexivity|].
  rewrite observations_S. cbn [List.length]. rewrite IH. reflexivity.
Qed.

(** X14.  The polling loop has no timeout of its own: for a store that
    never answers the status query with a success and never brings the
    count of reported failures up to the budget, the loop has not returned
    after any number of rounds. *)
Theorem poll_without_terminal_answer_never_returns
    (d : string) (v : ParseVars) (w : W) :
  (forall k,
      ~ In ObsSuccess (map classify (observations k d w)) /\
      count_failures (map classify (observations k d w)) < max_retries) ->
  forall fuel,
    fst (fst (poll fuel d (set_poll v 0 0 false None) w)) = None.
Proof.
  intros Hnever fuel.
  destruct (Hnever fuel) as [Hns Hcount].
  apply (poll_while_starved dataset_object d max_retries retry_interval fuel
           (map classify (observations fuel d w))).
  - rewrite length_map, observations_length. lia.
  - rewrite length_map, observations_length. reflexivity.
  - exact Hns.
  - reflexivity.
  - cbn [set_poll failed_status_count]. lia.
Qed.

End ParseAccounting.

(** X15.  With a valid dataset, [parse_documents_in_dataset] triggers the
    valid ids of the batch one by one and in order, each in a request of
    its own: the triggers of any run are those of a prefix of the valid
    ids, and those of a run that returns are those of all of them, exactly
    once each.  An empty id is never triggered. *)
Theorem every_valid_id_triggered_once
    (W : Type) (API : DataSetAPI W) (fuel : nat) (dataset : DataSet)
    (ids : list string) (max_retries retry_interval : Z) (w : W) :
  let run := parse_documents_in_dataset fuel (Some dataset) ids max_retries
               retry_interval w in
  (exists k,
      triggered (snd run) = map (fun d => [d]) (firstn k (filter truthy ids)))
  /\
  (fst (fst run) <> None ->
   triggered (snd run) = map (fun d => [d]) (filter truthy ids)).
Proof.
  cbv zeta. rewrite parse_documents_in_dataset_unfold.
  destruct (filter truthy ids) as [|j js] eqn:Hfilter.
  - cbn. split; [exists 0%nat|]; reflexivity.
  - destruct (parse_for_triggers (Some dataset) max_retries retry_interval
                fuel (j :: js) parse_vars0 w) as (k & Hk & Hall).
    cbv zeta in Hk, Hall.
    destruct (parse_for fuel _ _ _ _ (j :: js) w) as [[ov w'] tr].
    cbn [fst snd] in *. split; [exists k; exact Hk|].
    intros Hr. apply Hall. destruct ov; [discriminate|congruence].
Qed.

(** ** The dataset lookup *)

Section DatasetLookup.

Context {W : Type} {C : ClientAPI W}.

Lemma find_dataset_some (dataset_name : string) (datasets : list DataSet)
    (dataset : DataSet) :
  find_dataset dataset_name datasets = Some dataset ->
  exists pre post,
    datasets = pre ++ dataset :: post /\
    ds_name dataset = dataset_name /\
    Forall (fun d => ds_name d <> dataset_name) pre.
Proof.
  induction datasets as [|d datasets IH]; cbn [find_dataset]; [discriminate|].
  destruct (String.eqb_spec (ds_name d) dataset_name) as [Heq|Hneq].
  - intros H. injection H as <-. exists [], datasets.
    repeat split; [exact Heq|constructor].
  - intros H. destruct (IH H) as (pre & post & -> & Hname & Hpre).
    exists (d :: pre), post. repeat split; [exact Hname|].
    constructor; assumption.
Qed.

Lemma find_dataset_none (dataset_name : string) (datasets : list DataSet) :
  find_dataset dataset_name datasets = None <->
  Forall (fun d => ds_name d <> dataset_name) datasets.
Proof.
  induction datasets as [|d datasets IH]; cbn [find_dataset].
  - split; [constructor|reflexivity].
  - destruct (String.eqb_spec (ds_name d) dataset_name) as [Heq|Hneq].
    + split; [discriminate|]. intros H. inversion H. contradiction.
    + rewrite IH. split.
      * intros H. constructor; assumption.
      * intros H. inversion H. assumption.
Qed.

(** X16.  [get_dataset_by_name] never duplicates a dataset that the store
    lists: when the listing holds a dataset of exactly the requested name,
    the first such dataset is returned and the listing is the only call
    made; no dataset is created. *)
Theorem listed_dataset_is_returned_not_created
    (client : Client) (dataset_name : string)
    (embedding_model : option string) (w w1 : W)
    (datasets : list DataSet) :
  api_list_datasets w dataset_name = (w1, Ok datasets) ->
  Exists (fun d => ds_name d = dataset_name) datasets ->
  exists pre dataset post,
    datasets = pre ++ dataset :: post /\
    ds_name dataset = dataset_name /\
    Forall (fun d => ds_name d <> dataset_name) pre /\
    get_dataset_by_name (Some client) dataset_name embedding_model w
    = (Some dataset, w1, [EvListDatasets dataset_name (Ok datasets)]).
Proof.
  intros Hlist Hex.
  destruct (find_dataset dataset_name datasets) as [dataset|] eqn:Hfind.
  - destruct (find_dataset_some _ _ _ Hfind) as (pre & post & Hd & Hname & Hpre).
    exists pre, dataset, post. repeat split; try assumption.
    unfold get_dataset_by_name. rewrite Hlist, Hfind. reflexivity.
  - apply find_dataset_none in Hfind. apply Exists_exists in Hex.
    destruct Hex as (d & Hin & Hname). rewrite Forall_forall in Hfind.
    destruct (Hfind d Hin Hname).
Qed.

(** X17.  When the listing raises or holds no dataset of exactly the
    requested name, [get_dataset_by_name] makes one creation request and
    no more: for the requested name, with the [naive] chunk method and the
    fixed parser configuration, and with the embedding model exactly when
    a non-empty one is given.  It returns the dataset the store created,
    or nothing when the creation raises. *)
Theorem missing_dataset_is_created_once
    (client : Client) (dataset_name : string)
    (embedding_model : option string) (w w1 : W)
    (listing : result (list DataSet)) :
  api_list_datasets w dataset_name = (w1, listing) ->
  (listing = Raised \/
   exists datasets,
     listing = Ok datasets /\
     Forall (fun d => ds_name d <> dataset_name) datasets) ->
  let params :=
    mkCreateParams dataset_name "naive" parser_config
      (match embedding_model with
       | Some m => if String.eqb m "" then None else Some m
       | None => None
       end) in
  get_dataset_by_name (Some client) dataset_name embedding_model w
  = (match snd (api_create_dataset w1 params) with
     | Ok new_dataset => Some new_dataset
     | Raised => None
     end,
     fst (api_create_dataset w1 params),
     [EvListDatasets dataset_name listing;
      EvCreateDataset params (snd (api_create_dataset w1 params))]).
Proof.
  intros Hlist Hmissing. cbv zeta.
  assert (Hparams : create_params dataset_name embedding_model
                    = mkCreateParams dataset_name "naive" parser_config
                        (match embedding_model with
                         | Some m => if String.eqb m "" then None else Some m
                         | None => None
                         end)).
  { unfold create_params, truthy_opt, truthy.
    destruct embedding_model as [m|]; [|reflexivity].
    destruct (String.eqb m ""); reflexivity. }
  unfold get_dataset_by_name. rewrite Hlist, Hparams.
  assert (Hfind : find_dataset dataset_name
                    match listing with Ok l => l | Raised => [] end = None).
  { destruct Hmissing as [->|(datasets & -> & Hnone)]; [reflexivity|].
    apply find_dataset_none. exact Hnone. }
  rewrite Hfind.
  destruct (api_create_dataset w1 _) as [w2 c]. reflexivity.
Qed.

End DatasetLookup.

(** ** The upload section of [main] *)

(** X18.  The upload section of [main] contacts the store only when the
    upload is enabled, the folder path gives a dataset name and an
    embedding model is configured; otherwise it makes no call at all.
    When it does make a dataset call (an upload, a listing, a deletion, a
    trigger), the dataset is the one [get_dataset_by_name] returned for the
    name made of the prefix and the folder name: without a dataset nothing
    is uploaded. *)
Theorem main_uploads_only_into_resolved_dataset
    (W : Type) (C : ClientAPI W) (API : DataSetAPI W) (fuel : nat)
    (basename_normpath : string -> string)
    (listdir : string -> option (list DirEntry))
    (client : option Client) (mc : MainUploadConfig)
    (config : option Config) (w : W) :
  (mu_enabled mc = false \/
   target_dataset_name basename_normpath mc = None \/
   truthy_opt (mu_embedding_model mc) = false \/
   client = None ->
   main_upload_section fuel basename_normpath listdir client mc config w
   = (w, [], [])) /\
  (snd (main_upload_section fuel basename_normpath listdir client mc config w)
   <> [] ->
   exists name folder_path dataset,
     target_dataset_name basename_normpath mc = Some name /\
     mu_folder_path mc = Some folder_path /\
     fst (fst (get_dataset_by_name client name (mu_embedding_model mc) w))
     = Some dataset /\
     snd (main_upload_section fuel basename_normpath listdir client mc
            config w)
     = snd (upload_documents fuel (Some dataset) (listdir folder_path)
              default_extensions config
              (snd (fst (get_dataset_by_name client name
                           (mu_embedding_model mc) w))))).
Proof.
  unfold main_upload_section. split.
  - intros Hoff.
    destruct (mu_enabled mc); [|reflexivity].
    destruct (target_dataset_name basename_normpath mc) as [name|] eqn:Hname;
      [|reflexivity].
    destruct (mu_folder_path mc) as [folder_path|] eqn:Hfolder;
      [|rewrite !andb_false_r || rewrite andb_false_r; reflexivity].
    destruct (truthy_opt (mu_embedding_model mc)) eqn:Hem;
      [|rewrite andb_false_r; reflexivity].
    destruct Hoff as [H|[H|[H|H]]]; try discriminate. subst client.
    destruct (_ && _ && _); reflexivity.
  - intros Hcalls.
    destruct (mu_enabled mc); [|destruct Hcalls; reflexivity].
    destruct (_ && _ && _); [|destruct Hcalls; reflexivity].
    destruct (target_dataset_name basename_normpath mc) as [name|];
      [|destruct Hcalls; reflexivity].
    destruct (mu_folder_path mc) as [folder_path|];
      [|destruct Hcalls; reflexivity].
    destruct (get_dataset_by_name client name (mu_embedding_model mc) w)
      as [[[dataset|] w1] ct] eqn:Hget; [|destruct Hcalls; reflexivity].
    exists name, folder_path, dataset. rewrite Hget. cbn [fst snd].
    repeat split.
    destruct (upload_documents fuel _ _ _ _ w1) as [[r w2] t]. reflexivity.
Qed.

(** ** The further properties, on scenarios *)

(** Under [allow] nothing is deleted. *)
Lemma delete_only_under_replace_witness :
  existsb is_delete
    (snd (upload_documents 1 the_dataset (Some two_files) default_extensions
            (config_with_policy "allow") two_files_store)) = false.
Proof.
  apply (delete_only_under_replace the_dataset default_extensions 1
           (Some two_files) (config_with_policy "allow") two_files_store).
  vm_compute. intros H. discriminate H.
Defined.

(** The store lists nothing under [a.txt]: the file goes to the upload. *)
Lemma duplicate_check_fails_open_witness :
  ingest_file the_dataset default_extensions "skip_name" ingest_vars0 a_txt
    silent_store
  = let '(success, i, w2, t2) :=
      upload_document_to_dataset the_dataset a_txt silent_store in
    (if success then
       if truthy i then append_doc_id (add_processed ingest_vars0) i
       else add_processed ingest_vars0
     else add_upload_failed (add_processed ingest_vars0), w2,
     snd (list_documents_in_dataset the_dataset (Some (de_name a_txt)) 1 100
            None silent_store) ++ t2).
Proof.
  assert (Hlookup : list_documents_in_dataset the_dataset
                      (Some (de_name a_txt)) 1 100 None silent_store
                    = ([], silent_store,
                       snd (list_documents_in_dataset the_dataset
                              (Some (de_name a_txt)) 1 100 None silent_store)))
    by (vm_compute; reflexivity).
  apply (duplicate_check_fails_open the_dataset default_extensions
           "skip_name" ingest_vars0 a_txt silent_store _ _ _
           eq_refl ltac:(discriminate) Hlookup (or_introl eq_refl)).
Defined.


(** The extension [.TXT] matches neither [a.txt] nor [b.txt]. *)
Lemma upper_case_extension_never_matches_witness :
  upload_folder_loop the_dataset [".TXT"] "allow" ingest_vars0 two_files
    two_files_store = (ingest_vars0, two_files_store, []).
Proof.
  apply (upper_case_extension_never_matches Stub StubAPI the_dataset [".TXT"]
           "allow" two_files ingest_vars0 two_files_store).
  repeat constructor.
Defined.

(** The store forgets the upload: success, empty id. *)
Lemma upload_succeeds_iff_store_accepts_witness :
  let '(success, i, w', tr) :=
    upload_document_to_dataset the_dataset a_txt forgetful_store in
  (success = true <->
   the_dataset <> None /\ de_exists a_txt = true /\
   exists blob u,
     de_blob a_txt = Some blob /\
     snd (api_upload_documents forgetful_store (de_name a_txt) blob) = Ok u) /\
  (success = false -> i = "" /\ existsb is_listing tr = false) /\
  (the_dataset = None \/ readable a_txt = false ->
   (w', tr) = (forgetful_store, [])).
Proof.
  exact (upload_succeeds_iff_store_accepts the_dataset a_txt forgetful_store).
Defined.

(** The identifier [id-a] comes from the listing. *)
Lemma recovered_id_comes_from_the_listing_witness :
  exists blob w1 u docs d,
    de_blob a_txt = Some blob /\
    api_upload_documents two_listed_store (de_name a_txt) blob = (w1, Ok u) /\
    api_list_documents w1 (mkListArgs None (Some (de_name a_txt)) None None)
    = (silent_store, Ok docs) /\
    In d docs /\ getattr d doc_id = Some "id-a" /\
    (name_matches (de_name a_txt) d = true \/ hd_error docs = Some d).
Proof.
  assert (Hrun : upload_document_to_dataset the_dataset a_txt two_listed_store
                 = (true, "id-a", silent_store,
                    snd (upload_document_to_dataset the_dataset a_txt
                           two_listed_store)))
    by (vm_compute; reflexivity).
  exact (recovered_id_comes_from_the_listing the_dataset a_txt
           two_listed_store "id-a" silent_store _ Hrun eq_refl).
Defined.

(** [named_doc] is second in the listing and still gives the id. *)
Lemma first_name_match_gives_the_id_witness :
  fst (upload_document_to_dataset the_dataset a_txt two_listed_store)
  = (true, "id-a", silent_store).
Proof.
  assert (Hupload : api_upload_documents two_listed_store (de_name a_txt) "A"
                    = (two_listed_store, Ok tt)) by reflexivity.
  assert (Hlist : api_list_documents two_listed_store
                    (mkListArgs None (Some (de_name a_txt)) None None)
                  = (silent_store, Ok ([other_doc] ++ named_doc :: [])))
    by reflexivity.
  apply (first_name_match_gives_the_id (mkDataSet "kb" "ds-1") a_txt
           two_listed_store "A" two_listed_store tt silent_store
           [other_doc] [] named_doc "id-a" eq_refl eq_refl Hupload Hlist).
  - repeat constructor.
  - reflexivity.
  - reflexivity.
  - reflexivity.
Defined.

(** Only [other_doc] is listed: its id is taken. *)
Lemma no_name_match_takes_first_listed_witness :
  fst (upload_document_to_dataset the_dataset a_txt misnamed_store)
  = (true, "id-z", silent_store).
Proof.
  assert (Hupload : api_upload_documents misnamed_store (de_name a_txt) "A"
                    = (misnamed_store, Ok tt)) by reflexivity.
  assert (Hlist : api_list_documents misnamed_store
                    (mkListArgs None (Some (de_name a_txt)) None None)
                  = (silent_store, Ok [other_doc]))
    by reflexivity.
  apply (no_name_match_takes_first_listed (mkDataSet "kb" "ds-1") a_txt
           misnamed_store "A" misnamed_store tt silent_store other_doc []
           eq_refl eq_refl Hupload Hlist).
  repeat constructor.
Defined.

(** Three documents: one parsed, two failed. *)
Lemma parse_counts_every_document_once_witness :
  exists v',
    fst (fst (parse_for 3 the_dataset 2 5 parse_vars0 ["d1"; "d2"; "d3"]
                three_docs_store)) = Some v' /\
    success_count parse_vars0 <= success_count v' /\
    failed_count parse_vars0 <= failed_count v' /\
    success_count v' + failed_count v'
    = success_count parse_vars0 + failed_count parse_vars0
      + Z.of_nat (List.length ["d1"; "d2"; "d3"]).
Proof.
  assert (Hrun : parse_for 3 the_dataset 2 5 parse_vars0 ["d1"; "d2"; "d3"]
                   three_docs_store
                 = (Some (mkParseVars 1 2 3 2 true (Some "failed")),
                    silent_store,
                    snd (parse_for 3 the_dataset 2 5 parse_vars0
                           ["d1"; "d2"; "d3"] three_docs_store)))
    by (vm_compute; reflexivity).
  exists (mkParseVars 1 2 3 2 true (Some "failed")).
  split; [rewrite Hrun; reflexivity|].
  exact (parse_counts_every_document_once the_dataset 2 5 3
           ["d1"; "d2"; "d3"] _ _ _ _ _ Hrun).
Defined.

(** The empty id of the batch is not triggered. *)
Lemma every_valid_id_triggered_once_witness :
  triggered
    (snd (parse_documents_in_dataset 3 the_dataset ["d1"; ""; "d2"; "d3"] 2 5
            three_docs_store))
  = [["d1"]; ["d2"]; ["d3"]].
Proof.
  apply (proj2 (every_valid_id_triggered_once Stub StubAPI 3
                  (mkDataSet "kb" "ds-1") ["d1"; ""; "d2"; "d3"] 2 5
                  three_docs_store)).
  vm_compute. discriminate.
Defined.

Lemma silent_store_observations (k : nat) :
  poll_observations k the_dataset "d1" 5 silent_store = repeat [] k.
Proof.
  induction k as [|k IH]; [reflexivity|].
  rewrite observations_S. cbn [repeat].
  change (api_sleep
            (snd (fst (list_documents_in_dataset the_dataset None 1 100
                         (Some "d1") silent_store))) 5)
    with silent_store.
  rewrite IH. reflexivity.
Qed.

(** A store that lists nothing for the document keeps the loop polling. *)
Lemma poll_without_terminal_answer_never_returns_witness :
  fst (fst (poll_while 7 the_dataset "d1" 2 5
              (set_poll parse_vars0 0 0 false None) silent_store)) = None.
Proof.
  apply (poll_without_terminal_answer_never_returns the_dataset 2 5 "d1"
           parse_vars0 silent_store).
  intros k. rewrite silent_store_observations.
  induction k as [|k [IHin IHcount]]; cbn; split; try lia.
  intros [H|H]; [discriminate|exact (IHin H)].
Defined.

(** The dataset [kb] is listed second and returned. *)
Lemma listed_dataset_is_returned_not_created_witness :
  exists pre dataset post,
    [mkDataSet "kb-old" "ds-0"; mkDataSet "kb" "ds-1"]
    = pre ++ dataset :: post /\
    ds_name dataset = "kb" /\
    Forall (fun d => ds_name d <> "kb") pre /\
    @get_dataset_by_name ClientStub ClientStubAPI (Some the_client) "kb"
      (Some "bge-m3") listing_client
    = (Some dataset, listing_client,
       [EvListDatasets "kb"
          (Ok [mkDataSet "kb-old" "ds-0"; mkDataSet "kb" "ds-1"])]).
Proof.
  apply (@listed_dataset_is_returned_not_created ClientStub ClientStubAPI
           the_client "kb" (Some "bge-m3") listing_client listing_client
           [mkDataSet "kb-old" "ds-0"; mkDataSet "kb" "ds-1"]).
  - reflexivity.
  - right. left. reflexivity.
Defined.

(** The listing raises: the dataset is created. *)
Lemma missing_dataset_is_created_once_witness :
  @get_dataset_by_name ClientStub ClientStubAPI (Some the_client) "kb"
    (Some "bge-m3") failing_client
  = (Some (mkDataSet "kb" "new-id"), failing_client,
     [EvListDatasets "kb" Raised;
      EvCreateDataset
        (mkCreateParams "kb" "naive" parser_config (Some "bge-m3"))
        (Ok (mkDataSet "kb" "new-id"))]).
Proof.
  apply (@missing_dataset_is_created_once ClientStub ClientStubAPI
           the_client "kb" (Some "bge-m3") failing_client failing_client
           Raised).
  - reflexivity.
  - left. reflexivity.
Defined.

(** With the upload disabled the store is not contacted. *)
Lemma main_uploads_only_into_resolved_dataset_witness :
  @main_upload_section ClientStub ClientStubAPI ClientStubDataSetAPI 1
    (fun path => "policies")
    (fun path => Some two_files) (Some the_client) upload_disabled None
    listing_client
  = (listing_client, [], []).
Proof.
  apply (proj1 (main_uploads_only_into_resolved_dataset ClientStub
                  ClientStubAPI ClientStubDataSetAPI 1
                  (fun path => "policies") (fun path => Some two_files)
                  (Some the_client) upload_disabled None listing_client)).
  left. reflexivity.
Defined.
